(** * GumV8Platform: the V8 platform bridge of frida-gum

    A shallow embedding of [bindings/gumjs/gumv8platform.cpp].  Every method
    of [GumV8Platform] becomes a computation in a state-and-abort monad over
    the platform object and the host process; calls into collaborators (V8,
    GLib, the script scheduler, the bundle loader) append to a trace and
    update the host's queues, so that ordering and "exactly once" properties
    can be read off the trace. *)

From stdpp Require Import base option list gmap.
From Stdlib Require Import ZArith QArith Qround Lia.

(** ** Pointers and opaque collaborator objects *)

(** A nullable pointer; [NULL] is [None]. *)
Definition ptr (A : Type) : Type := option A.
Abbreviation NULL := None (only parsing).

(** Heap objects owned by collaborators are known by their address only. *)
Inductive Isolate := IsolateAt (addr : nat).
Inductive Context := ContextAt (addr : nat).
Inductive Task := TaskAt (addr : nat).
Inductive IdleTask := IdleTaskAt (addr : nat).
Inductive GumV8Bundle := BundleAt (addr : nat).
Inductive GumScriptScheduler := SchedulerAt (addr : nat).
Inductive GumArrayBufferAllocator := AllocatorAt (addr : nat).
Inductive GMainContext := JsContextOf (s : GumScriptScheduler).

#[global] Instance Isolate_eq_dec : EqDecision Isolate.
Proof. solve_decision. Defined.
#[global] Instance Task_eq_dec : EqDecision Task.
Proof. solve_decision. Defined.
#[global] Instance IdleTask_eq_dec : EqDecision IdleTask.
Proof. solve_decision. Defined.
#[global] Instance GumV8Bundle_eq_dec : EqDecision GumV8Bundle.
Proof. solve_decision. Defined.

(** [v8::Platform::ExpectedRuntime]. *)
Inductive ExpectedRuntime := kShortRunningTask | kLongRunningTask.

(** The static module tables handed to the bundle loader; they come from the
    generated headers [gumv8script-*.h] and are known here by name. *)
Inductive ModuleTable :=
| gumjs_runtime_modules
| gumjs_debug_modules
| gumjs_objc_modules
| gumjs_java_modules.

#[global] Instance ModuleTable_eq_dec : EqDecision ModuleTable.
Proof. solve_decision. Defined.

(** GLib's [G_PRIORITY_DEFAULT]. *)
Definition G_PRIORITY_DEFAULT : Z := 0.

(** ** Machine integers *)

(** [gint64]: a 64-bit two's complement integer, kept as a [Z] that is
    wrapped after every operation. *)
Definition wrap64 (z : Z) : Z := (z + 2 ^ 63) mod 2 ^ 64 - 2 ^ 63.
Definition gint64_sub (a b : Z) : Z := wrap64 (a - b).
(** C++ integer division truncates towards zero. *)
Definition gint64_div (a b : Z) : Z := wrap64 (a ÷ b).
Definition in_gint64 (z : Z) : Prop := (- 2 ^ 63 <= z < 2 ^ 63)%Z.

(** [guint]: 32 bits, unsigned. *)
Definition wrap_guint (z : Z) : Z := z mod 2 ^ 32.

(** ** Double precision arithmetic

    A finite [double] is modelled by the rational it denotes.  Every IEEE 754
    operation is the exact operation followed by a rounding [rnd] to the
    nearest representable value; the model is parametric in [rnd].  The
    quantities computed by the platform (milliseconds that fit 64 bits,
    divided by 1000, plus 1/60) stay far inside the finite range, so
    infinities and NaN do not arise. *)
Definition double : Type := Q.

Class DoubleRounding := { rnd : Q -> Q }.

(** What the proofs use of IEEE rounding: it is monotone, it is the identity
    on values that are already representable, and 0 is representable. *)
Class DoubleRoundingLaws `{DoubleRounding} : Prop := {
  rnd_monotone : forall x y : Q, (x <= y)%Q -> (rnd x <= rnd y)%Q;
  rnd_idempotent : forall x : Q, (rnd (rnd x) == rnd x)%Q;
  rnd_zero : (rnd 0 == 0)%Q
}.

Section DoubleOps.
Context `{DoubleRounding}.

(** [(double) z] for an integer [z]. *)
Definition double_of_gint64 (z : Z) : double := rnd (inject_Z z).
(** A literal such as [1000.0] is the nearest double to the decimal. *)
Definition double_lit (q : Q) : double := rnd q.
Definition double_add (a b : double) : double := rnd (a + b)%Q.
Definition double_mul (a b : double) : double := rnd (a * b)%Q.
Definition double_div (a b : double) : double := rnd (a / b)%Q.
End DoubleOps.

(** Conversion of a double to an integer discards the fractional part. *)
Definition Qtruncate (q : Q) : Z := (Qnum q ÷ Z.pos (Qden q))%Z.
(** The implicit conversion to [guint] at the call of
    [g_timeout_source_new]; out of range values are reduced modulo 2^32. *)
Definition double_to_guint (d : double) : Z := wrap_guint (Qtruncate d).

(** Exact arithmetic is one admissible rounding. *)
Definition exact_rounding : DoubleRounding := {| rnd := fun q => q |}.

(** Rounding down to a multiple of 2^-52 is another one; unlike the exact
    one it does change most values. *)
Definition fixed_rounding : DoubleRounding :=
  {| rnd := fun q => (inject_Z (Qfloor (q * inject_Z (2 ^ 52))) / inject_Z (2 ^ 52))%Q |}.

(** ** The platform object and its task requests *)

(** [class GumV8Platform]: the data members. *)
Record GumV8Platform := mkPlatform {
  disposing : bool;
  objc_bundle : ptr GumV8Bundle;
  java_bundle : ptr GumV8Bundle;
  runtime_bundle : ptr GumV8Bundle;
  debug_bundle : ptr GumV8Bundle;
  scheduler : GumScriptScheduler;
  start_time : Z;
  array_buffer_allocator : GumArrayBufferAllocator;
  isolate : Isolate
}.

(** There is one platform object; a [Platform *] can only point to it. *)
Inductive PlatformRef := ThisPlatform.

(** [template<class T> class GumV8TaskRequest]: the request lives on the heap
    at [addr] and is immutable once constructed. *)
Module GumV8TaskRequest.
Record t (T : Type) := mk {
  addr : nat;
  platform : PlatformRef;
  isolate : ptr Isolate;
  task : T
}.
Arguments mk {T} _ _ _ _.
Arguments addr {T} _.
Arguments platform {T} _.
Arguments isolate {T} _.
Arguments task {T} _.
End GumV8TaskRequest.

(** ** The host process *)

(** What the scheduler queues: a [GumScriptJobFunc] together with its data
    pointer.  The platform only ever passes two functions. *)
Inductive Job :=
| Job_HandleTaskRequest (request : GumV8TaskRequest.t Task)
| Job_HandleIdleTaskRequest (request : GumV8TaskRequest.t IdleTask).

(** A [GSourceFunc] with its data pointer. *)
Inductive SourceCallback :=
| Callback_HandleDelayedTaskRequest (request : GumV8TaskRequest.t Task).

(** A GLib timeout source. *)
Record GSource := mkSource {
  interval : Z;
  priority : Z;
  callback : option SourceCallback;
  attached_to : option GMainContext;
  ref_count : nat
}.

(** Calls into collaborators, in the order they are made. *)
Inductive Event :=
| EvStoreDisposing (value : bool)
| EvSchedulerNew (s : GumScriptScheduler)
| EvObjectUnref (s : GumScriptScheduler)
| EvAllocatorNew (a : GumArrayBufferAllocator)
| EvAllocatorDelete (a : GumArrayBufferAllocator)
| EvV8InitializePlatform
| EvV8Initialize
| EvV8Dispose
| EvV8ShutdownPlatform
| EvIsolateNew (a : GumArrayBufferAllocator) (i : Isolate)
| EvSetFatalErrorHandler (i : Isolate)
| EvIsolateDispose (i : Isolate)
| EvLockerEnter (i : ptr Isolate)
| EvLockerExit (i : ptr Isolate)
| EvIsolateScopeEnter (i : ptr Isolate)
| EvIsolateScopeExit (i : ptr Isolate)
| EvHandleScopeEnter (i : ptr Isolate)
| EvHandleScopeExit (i : ptr Isolate)
| EvContextNew (i : Isolate) (c : Context)
| EvContextScopeEnter (c : Context)
| EvContextScopeExit (c : Context)
| EvBundleNew (i : Isolate) (modules : ModuleTable) (b : GumV8Bundle)
| EvBundleFree (b : ptr GumV8Bundle)
| EvRequestNew (addr : nat)
| EvRequestFree (addr : nat)
| EvTaskRun (t : Task)
| EvTaskDelete (t : Task)
| EvIdleTaskRun (t : IdleTask) (deadline_in_seconds : double)
| EvIdleTaskDelete (t : IdleTask).

Record Host := mkHost {
  (** the value [g_get_monotonic_time] returns now *)
  clock : Z;
  (** the next free heap address *)
  next_addr : nat;
  trace : list Event;
  (** jobs pushed on the scheduler's thread pool, oldest first *)
  thread_pool : list Job;
  (** jobs pushed on the JS thread, with their priority, oldest first *)
  js_thread : list (Z * Job);
  (** the GLib sources that are alive, by address *)
  sources : gmap nat GSource;
  (** the tasks the engine hands to the platform while it shuts down *)
  v8_dispose_posts : list Task
}.

Record State := mkState {
  this : GumV8Platform;
  host : Host
}.

(** *** Field updates *)

Definition set_disposing (v : bool) (p : GumV8Platform) : GumV8Platform :=
  mkPlatform v (objc_bundle p) (java_bundle p) (runtime_bundle p) (debug_bundle p)
    (scheduler p) (start_time p) (array_buffer_allocator p) (isolate p).
Definition set_objc_bundle (v : ptr GumV8Bundle) (p : GumV8Platform) : GumV8Platform :=
  mkPlatform (disposing p) v (java_bundle p) (runtime_bundle p) (debug_bundle p)
    (scheduler p) (start_time p) (array_buffer_allocator p) (isolate p).
Definition set_java_bundle (v : ptr GumV8Bundle) (p : GumV8Platform) : GumV8Platform :=
  mkPlatform (disposing p) (objc_bundle p) v (runtime_bundle p) (debug_bundle p)
    (scheduler p) (start_time p) (array_buffer_allocator p) (isolate p).
Definition set_runtime_bundle (v : ptr GumV8Bundle) (p : GumV8Platform) : GumV8Platform :=
  mkPlatform (disposing p) (objc_bundle p) (java_bundle p) v (debug_bundle p)
    (scheduler p) (start_time p) (array_buffer_allocator p) (isolate p).
Definition set_debug_bundle (v : ptr GumV8Bundle) (p : GumV8Platform) : GumV8Platform :=
  mkPlatform (disposing p) (objc_bundle p) (java_bundle p) (runtime_bundle p) v
    (scheduler p) (start_time p) (array_buffer_allocator p) (isolate p).
Definition set_scheduler (v : GumScriptScheduler) (p : GumV8Platform) : GumV8Platform :=
  mkPlatform (disposing p) (objc_bundle p) (java_bundle p) (runtime_bundle p) (debug_bundle p)
    v (start_time p) (array_buffer_allocator p) (isolate p).
Definition set_start_time (v : Z) (p : GumV8Platform) : GumV8Platform :=
  mkPlatform (disposing p) (objc_bundle p) (java_bundle p) (runtime_bundle p) (debug_bundle p)
    (scheduler p) v (array_buffer_allocator p) (isolate p).
Definition set_array_buffer_allocator (v : GumArrayBufferAllocator) (p : GumV8Platform)
  : GumV8Platform :=
  mkPlatform (disposing p) (objc_bundle p) (java_bundle p) (runtime_bundle p) (debug_bundle p)
    (scheduler p) (start_time p) v (isolate p).
Definition set_isolate (v : Isolate) (p : GumV8Platform) : GumV8Platform :=
  mkPlatform (disposing p) (objc_bundle p) (java_bundle p) (runtime_bundle p) (debug_bundle p)
    (scheduler p) (start_time p) (array_buffer_allocator p) v.

Definition set_clock (v : Z) (h : Host) : Host :=
  mkHost v (next_addr h) (trace h) (thread_pool h) (js_thread h) (sources h)
    (v8_dispose_posts h).
Definition set_next_addr (v : nat) (h : Host) : Host :=
  mkHost (clock h) v (trace h) (thread_pool h) (js_thread h) (sources h)
    (v8_dispose_posts h).
Definition set_trace (v : list Event) (h : Host) : Host :=
  mkHost (clock h) (next_addr h) v (thread_pool h) (js_thread h) (sources h)
    (v8_dispose_posts h).
Definition set_thread_pool (v : list Job) (h : Host) : Host :=
  mkHost (clock h) (next_addr h) (trace h) v (js_thread h) (sources h)
    (v8_dispose_posts h).
Definition set_js_thread (v : list (Z * Job)) (h : Host) : Host :=
  mkHost (clock h) (next_addr h) (trace h) (thread_pool h) v (sources h)
    (v8_dispose_posts h).
Definition set_sources (v : gmap nat GSource) (h : Host) : Host :=
  mkHost (clock h) (next_addr h) (trace h) (thread_pool h) (js_thread h) v
    (v8_dispose_posts h).
Definition set_v8_dispose_posts (v : list Task) (h : Host) : Host :=
  mkHost (clock h) (next_addr h) (trace h) (thread_pool h) (js_thread h) (sources h) v.

(** ** The monad: state, plus process abort *)

Inductive Outcome (A : Type) :=
| Ok (a : A) (s : State)
| Abort (s : State).
Arguments Ok {A} _ _.
Arguments Abort {A} _.

Definition M (A : Type) : Type := State -> Outcome A.

Definition ret {A} (a : A) : M A := fun s => Ok a s.
Definition bind {A B} (m : M A) (k : A -> M B) : M B :=
  fun s => match m s with
           | Ok a s' => k a s'
           | Abort s' => Abort s'
           end.

Declare Scope platform_scope.
Delimit Scope platform_scope with M.
Notation "'let*' x ':=' m 'in' k" := (bind m (fun x => k))
  (at level 10, x name, m at level 100, k at level 200) : platform_scope.
Notation "m ';;;' k" := (bind m (fun _ => k))
  (at level 100, k at level 200, right associativity) : platform_scope.
Open Scope platform_scope.

Definition get_this : M GumV8Platform := fun s => Ok (this s) s.
Definition modify_this (f : GumV8Platform -> GumV8Platform) : M unit :=
  fun s => Ok tt (mkState (f (this s)) (host s)).
Definition get_host : M Host := fun s => Ok (host s) s.
Definition modify_host (f : Host -> Host) : M unit :=
  fun s => Ok tt (mkState (this s) (f (host s))).

(** The final state of a run, however it ended. *)
Definition final {A} (o : Outcome A) : State :=
  match o with Ok _ s => s | Abort s => s end.

Definition aborted {A} (o : Outcome A) : bool :=
  match o with Ok _ _ => false | Abort _ => true end.

(** ** Collaborators *)

Definition emit (e : Event) : M unit :=
  modify_host (fun h => set_trace (trace h ++ [e]) h).

(** A fresh heap address. *)
Definition alloc : M nat :=
  let* h := get_host in
  modify_host (set_next_addr (S (next_addr h)));;;
  ret (next_addr h).

(** [g_assert (expr)]: a failed assertion aborts the process. *)
Definition g_assert (expr : bool) : M unit :=
  fun s => if expr then Ok tt s else Abort s.

(** [g_get_monotonic_time ()]. *)
Definition g_get_monotonic_time : M Z :=
  let* h := get_host in ret (clock h).

(** *** V8 *)

Definition V8_InitializePlatform : M unit := emit EvV8InitializePlatform.
Definition V8_Initialize : M unit := emit EvV8Initialize.
Definition V8_ShutdownPlatform : M unit := emit EvV8ShutdownPlatform.

Definition GumArrayBufferAllocator_new : M GumArrayBufferAllocator :=
  let* a := alloc in
  emit (EvAllocatorNew (AllocatorAt a));;;
  ret (AllocatorAt a).
Definition GumArrayBufferAllocator_delete (a : GumArrayBufferAllocator) : M unit :=
  emit (EvAllocatorDelete a).

(** [Isolate::New (params)], where the only parameter set is the allocator. *)
Definition Isolate_New (array_buffer_allocator : GumArrayBufferAllocator) : M Isolate :=
  let* a := alloc in
  emit (EvIsolateNew array_buffer_allocator (IsolateAt a));;;
  ret (IsolateAt a).
Definition Isolate_SetFatalErrorHandler (i : Isolate) : M unit :=
  emit (EvSetFatalErrorHandler i).
Definition Isolate_Dispose (i : Isolate) : M unit := emit (EvIsolateDispose i).

Definition Context_New (i : Isolate) : M Context :=
  let* a := alloc in
  emit (EvContextNew i (ContextAt a));;;
  ret (ContextAt a).

(** The RAII scopes: the constructor runs where the object is declared, the
    destructor when the enclosing block is left. *)
Definition Locker {A} (i : ptr Isolate) (block : M A) : M A :=
  emit (EvLockerEnter i);;;
  let* r := block in
  emit (EvLockerExit i);;;
  ret r.
Definition Isolate_Scope {A} (i : ptr Isolate) (block : M A) : M A :=
  emit (EvIsolateScopeEnter i);;;
  let* r := block in
  emit (EvIsolateScopeExit i);;;
  ret r.
Definition HandleScope {A} (i : ptr Isolate) (block : M A) : M A :=
  emit (EvHandleScopeEnter i);;;
  let* r := block in
  emit (EvHandleScopeExit i);;;
  ret r.
Definition Context_Scope {A} (c : Context) (block : M A) : M A :=
  emit (EvContextScopeEnter c);;;
  let* r := block in
  emit (EvContextScopeExit c);;;
  ret r.

(** The work units of the engine: what running one does is the engine's
    business; the platform only sees that it ran. *)
Definition Task_Run (t : Task) : M unit := emit (EvTaskRun t).
Definition IdleTask_Run (t : IdleTask) (deadline_in_seconds : double) : M unit :=
  emit (EvIdleTaskRun t deadline_in_seconds).

(** What the template parameter [T] of [GumV8TaskRequest] must offer. *)
Class TaskClass (T : Type) := { delete_task : T -> M unit }.
#[global] Instance Task_class : TaskClass Task :=
  {| delete_task t := emit (EvTaskDelete t) |}.
#[global] Instance IdleTask_class : TaskClass IdleTask :=
  {| delete_task t := emit (EvIdleTaskDelete t) |}.

(** *** The bundle loader *)

(** Modelled from the spec: [gum_v8_bundle_new] of gumv8bundle.cpp;
    "compile(vm, mapping of module-name to source-text) gives a Bundle
    handle".  Every call yields a new bundle. *)
Definition gum_v8_bundle_new (i : Isolate) (modules : ModuleTable) : M GumV8Bundle :=
  let* a := alloc in
  emit (EvBundleNew i modules (BundleAt a));;;
  ret (BundleAt a).

(** Modelled from the spec: [gum_v8_bundle_free] of gumv8bundle.cpp; it
    destroys the bundle it is given. *)
Definition gum_v8_bundle_free (b : ptr GumV8Bundle) : M unit :=
  emit (EvBundleFree b).

(** *** The script scheduler *)

(** Modelled from the spec: the host scheduler of gumscriptscheduler.c;
    "submit-to-pool(function, argument); submit-to-script-thread(priority,
    function, argument); retrieve-script-thread-event-loop-handle()". *)
Definition gum_script_scheduler_new : M GumScriptScheduler :=
  let* a := alloc in
  emit (EvSchedulerNew (SchedulerAt a));;;
  ret (SchedulerAt a).

Definition gum_script_scheduler_push_job_on_thread_pool
    (self : GumScriptScheduler) (job : Job) : M unit :=
  modify_host (fun h => set_thread_pool (thread_pool h ++ [job]) h).

Definition gum_script_scheduler_push_job_on_js_thread
    (self : GumScriptScheduler) (priority : Z) (job : Job) : M unit :=
  modify_host (fun h => set_js_thread (js_thread h ++ [(priority, job)]) h).

Definition gum_script_scheduler_get_js_context (self : GumScriptScheduler) : GMainContext :=
  JsContextOf self.

Definition g_object_unref (s : GumScriptScheduler) : M unit := emit (EvObjectUnref s).

(** *** GLib timeout sources *)

Definition set_priority (v : Z) (g : GSource) : GSource :=
  mkSource (interval g) v (callback g) (attached_to g) (ref_count g).
Definition set_callback (v : option SourceCallback) (g : GSource) : GSource :=
  mkSource (interval g) (priority g) v (attached_to g) (ref_count g).
Definition set_attached_to (v : option GMainContext) (g : GSource) : GSource :=
  mkSource (interval g) (priority g) (callback g) v (ref_count g).
Definition set_ref_count (v : nat) (g : GSource) : GSource :=
  mkSource (interval g) (priority g) (callback g) (attached_to g) v.

Definition modify_sources (f : gmap nat GSource -> gmap nat GSource) : M unit :=
  modify_host (fun h => set_sources (f (sources h)) h).

(** A new source holds one reference, that of its creator. *)
Definition g_timeout_source_new (interval : Z) : M nat :=
  let* a := alloc in
  modify_sources (insert a (mkSource interval G_PRIORITY_DEFAULT None None 1));;;
  ret a.
Definition g_source_set_priority (source : nat) (priority : Z) : M unit :=
  modify_sources (alter (set_priority priority) source).
Definition g_source_set_callback (source : nat) (func : SourceCallback) : M unit :=
  modify_sources (alter (set_callback (Some func)) source).
(** The context takes a reference of its own. *)
Definition g_source_attach (source : nat) (context : GMainContext) : M unit :=
  modify_sources
    (alter (fun g => set_ref_count (S (ref_count g)) (set_attached_to (Some context) g)) source).
(** Dropping the last reference frees the source. *)
Definition g_source_unref (source : nat) : M unit :=
  modify_sources (fun m =>
    match m !! source with
    | Some g => if decide (ref_count g <= 1)%nat then delete source m
                else alter (set_ref_count (pred (ref_count g))) source m
    | None => m
    end).
(** Removing a source from its context drops the context's reference. *)
Definition g_source_destroy (source : nat) : M unit :=
  modify_sources (alter (set_attached_to None) source);;;
  g_source_unref source.

(** ** GumV8Platform *)

(** [new GumV8TaskRequest<T> (platform, isolate, task)]. *)
Definition GumV8TaskRequest_new {T} (platform : PlatformRef) (isolate : ptr Isolate)
    (task : T) : M (GumV8TaskRequest.t T) :=
  let* a := alloc in
  emit (EvRequestNew a);;;
  ret (GumV8TaskRequest.mk a platform isolate task).

(** [delete request]: the destructor deletes the task, then the request's
    memory is released. *)
Definition GumV8TaskRequest_delete {T} `{TaskClass T} (request : GumV8TaskRequest.t T)
    : M unit :=
  delete_task (GumV8TaskRequest.task request);;;
  emit (EvRequestFree (GumV8TaskRequest.addr request)).

(** A store to the [disposing] flag; other threads read the flag, so the
    store is recorded in the trace as well. *)
Definition store_disposing (v : bool) : M unit :=
  modify_this (set_disposing v);;;
  emit (EvStoreDisposing v).

Definition InitRuntime : M unit :=
  let* p := get_this in
  let locked := Some (isolate p) in
  Locker locked (Isolate_Scope locked (HandleScope locked (
    let* p := get_this in
    let* context := Context_New (isolate p) in
    Context_Scope context (
      let* p := get_this in
      let* b := gum_v8_bundle_new (isolate p) gumjs_runtime_modules in
      modify_this (set_runtime_bundle (Some b));;;
      let* p := get_this in
      let* b := gum_v8_bundle_new (isolate p) gumjs_debug_modules in
      modify_this (set_debug_bundle (Some b)))))).

(** The constructor.  It runs on the raw storage of the object, whose
    previous content is whatever [this] holds on entry.  The member
    initialisers are run in the order of the initialiser list (the class
    declaration, which fixes the real order, is in gumv8platform.h). *)
Definition GumV8Platform_new : M unit :=
  store_disposing false;;;
  modify_this (set_objc_bundle NULL);;;
  modify_this (set_java_bundle NULL);;;
  (let* s := gum_script_scheduler_new in modify_this (set_scheduler s));;;
  (let* t := g_get_monotonic_time in modify_this (set_start_time t));;;
  (let* a := GumArrayBufferAllocator_new in modify_this (set_array_buffer_allocator a));;;
  V8_InitializePlatform;;;
  V8_Initialize;;;
  let* p := get_this in
  let params := array_buffer_allocator p in
  (let* i := Isolate_New params in modify_this (set_isolate i));;;
  let* p := get_this in
  Isolate_SetFatalErrorHandler (isolate p);;;
  InitRuntime.

Definition GetObjCBundle : M (ptr GumV8Bundle) :=
  let* p := get_this in
  (if objc_bundle p is None
   then let* b := gum_v8_bundle_new (isolate p) gumjs_objc_modules in
        modify_this (set_objc_bundle (Some b))
   else ret tt);;;
  let* p := get_this in
  ret (objc_bundle p).

Definition GetJavaBundle : M (ptr GumV8Bundle) :=
  let* p := get_this in
  (if java_bundle p is None
   then let* b := gum_v8_bundle_new (isolate p) gumjs_java_modules in
        modify_this (set_java_bundle (Some b))
   else ret tt);;;
  let* p := get_this in
  ret (java_bundle p).

Definition CallOnBackgroundThread (task : Task) (expected_runtime : ExpectedRuntime)
    : M unit :=
  let* p := get_this in
  if disposing p then
    (* This happens during V8::Dispose() *)
    Task_Run task;;;
    delete_task task
  else
    let* request := GumV8TaskRequest_new ThisPlatform NULL task in
    gum_script_scheduler_push_job_on_thread_pool (scheduler p)
      (Job_HandleTaskRequest request).

Definition CallOnForegroundThread (for_isolate : ptr Isolate) (task : Task) : M unit :=
  let* p := get_this in
  g_assert (negb (disposing p));;;
  let* request := GumV8TaskRequest_new ThisPlatform for_isolate task in
  gum_script_scheduler_push_job_on_js_thread (scheduler p) G_PRIORITY_DEFAULT
    (Job_HandleTaskRequest request).

Definition CallIdleOnForegroundThread (for_isolate : ptr Isolate) (task : IdleTask)
    : M unit :=
  let* p := get_this in
  g_assert (negb (disposing p));;;
  let* request := GumV8TaskRequest_new ThisPlatform for_isolate task in
  gum_script_scheduler_push_job_on_js_thread (scheduler p) G_PRIORITY_DEFAULT
    (Job_HandleIdleTaskRequest request).

Definition IdleTasksEnabled (for_isolate : ptr Isolate) : M bool := ret true.

Definition HandleTaskRequest (request : GumV8TaskRequest.t Task) : M unit :=
  let isolate := GumV8TaskRequest.isolate request in
  if isolate is Some _ then
    Locker isolate (Isolate_Scope isolate (HandleScope isolate (
      Task_Run (GumV8TaskRequest.task request);;;
      GumV8TaskRequest_delete request)))
  else
    Task_Run (GumV8TaskRequest.task request);;;
    GumV8TaskRequest_delete request.

(** The [gboolean] result is [FALSE]. *)
Definition HandleDelayedTaskRequest (request : GumV8TaskRequest.t Task) : M bool :=
  HandleTaskRequest request;;;
  ret false.

(** Modelled from the comment in [CallOnBackgroundThread]: while it shuts
    down, the engine hands its remaining background tasks to the platform. *)
Definition V8_Dispose : M unit :=
  emit EvV8Dispose;;;
  let* h := get_host in
  modify_host (set_v8_dispose_posts []);;;
  foldr (fun t rest => CallOnBackgroundThread t kShortRunningTask;;; rest) (ret tt)
    (v8_dispose_posts h).

(** The destructor. *)
Definition GumV8Platform_delete : M unit :=
  store_disposing true;;;
  (let* p := get_this in
   let locked := Some (isolate p) in
   Locker locked (Isolate_Scope locked (HandleScope locked (
     let* p := get_this in
     (if objc_bundle p is Some _ then gum_v8_bundle_free (objc_bundle p) else ret tt);;;
     let* p := get_this in
     (if java_bundle p is Some _ then gum_v8_bundle_free (java_bundle p) else ret tt);;;
     let* p := get_this in
     gum_v8_bundle_free (debug_bundle p);;;
     let* p := get_this in
     gum_v8_bundle_free (runtime_bundle p)))));;;
  (let* p := get_this in Isolate_Dispose (isolate p));;;
  V8_Dispose;;;
  V8_ShutdownPlatform;;;
  (let* p := get_this in g_object_unref (scheduler p));;;
  let* p := get_this in
  GumArrayBufferAllocator_delete (array_buffer_allocator p).

Section WithDoubles.
Context `{DoubleRounding}.

Definition CallDelayedOnForegroundThread (for_isolate : ptr Isolate) (task : Task)
    (delay_in_seconds : double) : M unit :=
  let* p := get_this in
  g_assert (negb (disposing p));;;
  let* request := GumV8TaskRequest_new ThisPlatform for_isolate task in
  let* source :=
    g_timeout_source_new
      (double_to_guint (double_mul delay_in_seconds (double_lit 1000))) in
  g_source_set_priority source G_PRIORITY_DEFAULT;;;
  g_source_set_callback source (Callback_HandleDelayedTaskRequest request);;;
  g_source_attach source (gum_script_scheduler_get_js_context (scheduler p));;;
  g_source_unref source.

Definition MonotonicallyIncreasingTime : M double :=
  let* now := g_get_monotonic_time in
  let* p := get_this in
  let delta := gint64_sub now (start_time p) in
  ret (double_div (double_of_gint64 (gint64_div delta 1000)) (double_lit 1000)).

(** A method call through a [Platform *]. *)
Definition Platform_MonotonicallyIncreasingTime (platform : PlatformRef) : M double :=
  match platform with ThisPlatform => MonotonicallyIncreasingTime end.

Definition HandleIdleTaskRequest (request : GumV8TaskRequest.t IdleTask) : M unit :=
  let isolate := GumV8TaskRequest.isolate request in
  Locker isolate (Isolate_Scope isolate (HandleScope isolate (
    let* now := Platform_MonotonicallyIncreasingTime
                  (GumV8TaskRequest.platform request) in
    let deadline_in_seconds :=
      double_add now (double_div (double_lit 1) (double_lit 60)) in
    IdleTask_Run (GumV8TaskRequest.task request) deadline_in_seconds;;;
    GumV8TaskRequest_delete request))).

(** ** The executors

    What the collaborators do with the jobs and timers they were given:
    the steps the host can take between two calls of the engine.  Each step
    runs one handler to its end. *)

Definition run_job (j : Job) : M unit :=
  match j with
  | Job_HandleTaskRequest request => HandleTaskRequest request
  | Job_HandleIdleTaskRequest request => HandleIdleTaskRequest request
  end.

Definition run_callback (c : SourceCallback) : M bool :=
  match c with
  | Callback_HandleDelayedTaskRequest request => HandleDelayedTaskRequest request
  end.

(** Modelled from the spec: the thread pool of the scheduler; "the scheduler
    later invokes that handler on the correct executor".  A pool thread
    takes the job at position [n] of the pool's queue. *)
Definition thread_pool_step (n : nat) : M unit :=
  let* h := get_host in
  match thread_pool h !! n with
  | Some j => modify_host (set_thread_pool (delete n (thread_pool h)));;; run_job j
  | None => ret tt
  end.

(** Modelled from the spec: the script thread of the scheduler;
    "same-priority VM-affine tasks run in submission order".  The JS thread
    takes the oldest job of its queue. *)
Definition js_thread_step : M unit :=
  let* h := get_host in
  match js_thread h with
  | (_, j) :: rest => modify_host (set_js_thread rest);;; run_job j
  | [] => ret tt
  end.

(** GLib's main loop, on the JS thread, dispatches a source that is due:
    it calls the callback, and destroys the source when the callback
    returns [FALSE]. *)
Definition g_main_context_dispatch_source (source : nat) : M unit :=
  let* h := get_host in
  match sources h !! source with
  | Some g =>
      match attached_to g, callback g with
      | Some _, Some c =>
          let* again := run_callback c in
          if again then ret tt else g_source_destroy source
      | _, _ => ret tt
      end
  | None => ret tt
  end.

(** The host's monotonic clock moves on. *)
Definition clock_advance (dt : N) : M unit :=
  modify_host (fun h => set_clock (clock h + Z.of_N dt) h).

(** One thing that can happen to a constructed platform. *)
Inductive Action :=
| DoGetObjCBundle
| DoGetJavaBundle
| DoCallOnBackgroundThread (task : Task) (expected_runtime : ExpectedRuntime)
| DoCallOnForegroundThread (for_isolate : ptr Isolate) (task : Task)
| DoCallDelayedOnForegroundThread (for_isolate : ptr Isolate) (task : Task)
    (delay_in_seconds : double)
| DoCallIdleOnForegroundThread (for_isolate : ptr Isolate) (task : IdleTask)
| DoIdleTasksEnabled (for_isolate : ptr Isolate)
| DoMonotonicallyIncreasingTime
| DoThreadPoolStep (n : nat)
| DoJsThreadStep
| DoDispatchSource (source : nat)
| DoClockAdvance (dt : N).

Definition perform (a : Action) : M unit :=
  match a with
  | DoGetObjCBundle => GetObjCBundle;;; ret tt
  | DoGetJavaBundle => GetJavaBundle;;; ret tt
  | DoCallOnBackgroundThread t e => CallOnBackgroundThread t e
  | DoCallOnForegroundThread i t => CallOnForegroundThread i t
  | DoCallDelayedOnForegroundThread i t d => CallDelayedOnForegroundThread i t d
  | DoCallIdleOnForegroundThread i t => CallIdleOnForegroundThread i t
  | DoIdleTasksEnabled i => IdleTasksEnabled i;;; ret tt
  | DoMonotonicallyIncreasingTime => MonotonicallyIncreasingTime;;; ret tt
  | DoThreadPoolStep n => thread_pool_step n
  | DoJsThreadStep => js_thread_step
  | DoDispatchSource source => g_main_context_dispatch_source source
  | DoClockAdvance dt => clock_advance dt
  end.

Fixpoint perform_all (l : list Action) : M unit :=
  match l with
  | [] => ret tt
  | a :: l' => perform a;;; perform_all l'
  end.

End WithDoubles.

(** ** GumArrayBufferAllocator

    The allocator the isolate is created with hands the engine's requests
    for buffers to GLib.  GLib's heap is kept apart from the rest of the
    host: the blocks that are allocated, by address; the next address GLib
    will hand out; and what memory that was never written holds.  Running
    out of memory (on which GLib ends the process) is not modelled. *)

Record GHeap := mkHeap {
  blocks : gmap nat (list Byte.byte);
  brk : nat;
  stale : nat -> Byte.byte
}.

(** [g_malloc (n_bytes)]: a new block with whatever the memory held; NULL
    for a request of no bytes. *)
Definition g_malloc (n_bytes : nat) (h : GHeap) : ptr nat * GHeap :=
  match n_bytes with
  | O => (NULL, h)
  | S _ =>
      (Some (brk h),
       mkHeap (<[brk h := stale h <$> seq (brk h) n_bytes]> (blocks h))
         (brk h + n_bytes) (stale h))
  end.

(** [g_malloc0 (n_bytes)]: the same, with every byte cleared. *)
Definition g_malloc0 (n_bytes : nat) (h : GHeap) : ptr nat * GHeap :=
  match n_bytes with
  | O => (NULL, h)
  | S _ =>
      (Some (brk h),
       mkHeap (<[brk h := replicate n_bytes Byte.x00]> (blocks h))
         (brk h + n_bytes) (stale h))
  end.

(** [g_free (mem)]: releases the block; NULL is ignored. *)
Definition g_free (mem : ptr nat) (h : GHeap) : GHeap :=
  match mem with
  | Some a => mkHeap (delete a (blocks h)) (brk h) (stale h)
  | None => h
  end.

Module GumArrayBufferAllocator.

Definition Allocate (length : nat) (h : GHeap) : ptr nat * GHeap :=
  g_malloc0 length h.

Definition AllocateUninitialized (length : nat) (h : GHeap) : ptr nat * GHeap :=
  g_malloc length h.

Definition Free (data : ptr nat) (length : nat) (h : GHeap) : GHeap :=
  g_free data h.

End GumArrayBufferAllocator.

(** * The vocabulary of the statements *)

(** The events a run has added to the trace. *)
Definition events_since (s0 s : State) : list Event :=
  drop (length (trace (host s0))) (trace (host s)).

(** What a handler adds to the trace around the run of the task: the three
    scopes of the isolate, entered in order and left in reverse. *)
Definition in_isolate (i : ptr Isolate) (body : list Event) : list Event :=
  [EvLockerEnter i; EvIsolateScopeEnter i; EvHandleScopeEnter i] ++ body ++
  [EvHandleScopeExit i; EvIsolateScopeExit i; EvLockerExit i].

(** The events that concern one task, or one request. *)
Definition is_run_of (t : Task) (e : Event) : bool :=
  match e with EvTaskRun t' => bool_decide (t' = t) | _ => false end.
Definition is_idle_run_of (t : IdleTask) (e : Event) : bool :=
  match e with EvIdleTaskRun t' _ => bool_decide (t' = t) | _ => false end.
Definition is_delete_of (t : Task) (e : Event) : bool :=
  match e with EvTaskDelete t' => bool_decide (t' = t) | _ => false end.
Definition is_idle_delete_of (t : IdleTask) (e : Event) : bool :=
  match e with EvIdleTaskDelete t' => bool_decide (t' = t) | _ => false end.
Definition is_free_of (a : nat) (e : Event) : bool :=
  match e with EvRequestFree a' => bool_decide (a' = a) | _ => false end.

(** How often an event of some kind occurs. *)
Definition count (f : Event -> bool) (l : list Event) : nat := length (filter f l).

(** The platform object, the two queues and the timers are as before. *)
Definition same_platform_and_queues (s s' : State) : Prop :=
  this s' = this s /\
  thread_pool (host s') = thread_pool (host s) /\
  js_thread (host s') = js_thread (host s) /\
  sources (host s') = sources (host s).

(** The value [MonotonicallyIncreasingTime] returns in a state. *)
Definition reading `{DoubleRounding} (s : State) : double :=
  match MonotonicallyIncreasingTime s with
  | Ok t _ => t
  | Abort _ => 0%Q
  end.

(** The timer [CallDelayedOnForegroundThread] leaves behind for a request. *)
Definition delayed_source `{DoubleRounding} (p : GumV8Platform)
    (request : GumV8TaskRequest.t Task) (delay_in_seconds : double) : GSource :=
  {| interval := double_to_guint (double_mul delay_in_seconds (double_lit 1000));
     priority := G_PRIORITY_DEFAULT;
     callback := Some (Callback_HandleDelayedTaskRequest request);
     attached_to := Some (JsContextOf (scheduler p));
     ref_count := 1 |}.

(** The calls of the bundle loader. *)
Definition is_bundle_event (e : Event) : bool :=
  match e with
  | EvBundleNew _ _ _ | EvBundleFree _ => true
  | _ => false
  end.

(** The bundle events of a trace, in order. *)
Definition bundle_events (l : list Event) : list Event := filter is_bundle_event l.

(** A run that neither touches the platform object nor the bundles: it only
    adds events that are not about bundles, and only ever moves the
    allocation pointer and the clock forward. *)
Definition bundle_frame (s s' : State) : Prop :=
  this s' = this s /\
  (exists evs, trace (host s') = trace (host s) ++ evs /\ bundle_events evs = []) /\
  (next_addr (host s) <= next_addr (host s'))%nat /\
  (clock (host s) <= clock (host s'))%Z.

(** A computation all of whose runs are of that kind. *)
Definition framed {A} (m : M A) : Prop := forall s, bundle_frame s (final (m s)).

(** The actions other than the two getters of the lazy bundles. *)
Definition is_getter (a : Action) : bool :=
  match a with DoGetObjCBundle | DoGetJavaBundle => true | _ => false end.

(** The module tables that were compiled, the bundles that were created and
    the pointers that were freed, in the order of the trace. *)
Definition compiled_modules (l : list Event) : list ModuleTable :=
  omap (fun e => match e with EvBundleNew _ m _ => Some m | _ => None end) l.
Definition created_bundles (l : list Event) : list GumV8Bundle :=
  omap (fun e => match e with EvBundleNew _ _ b => Some b | _ => None end) l.
Definition freed_bundles (l : list Event) : list (ptr GumV8Bundle) :=
  omap (fun e => match e with EvBundleFree b => Some b | _ => None end) l.

(** The bundle events that account for the slots of a platform object. *)
Definition slot_event (i : Isolate) (m : ModuleTable) (slot : ptr GumV8Bundle)
    : list Event :=
  match slot with Some b => [EvBundleNew i m b] | None => [] end.

(** The creations of all the bundles a platform object holds. *)
Definition slot_events (p : GumV8Platform) : list Event :=
  slot_event (isolate p) gumjs_objc_modules (objc_bundle p) ++
  slot_event (isolate p) gumjs_java_modules (java_bundle p) ++
  slot_event (isolate p) gumjs_debug_modules (debug_bundle p) ++
  slot_event (isolate p) gumjs_runtime_modules (runtime_bundle p).

(** The bundles a platform object holds, in the order the destructor visits
    the slots. *)
Definition bundles_of (p : GumV8Platform) : list GumV8Bundle :=
  omap id [objc_bundle p; java_bundle p; debug_bundle p; runtime_bundle p].

(** The address of a bundle. *)
Definition bundle_addr (b : GumV8Bundle) : nat := match b with BundleAt a => a end.

(** The invariant of a platform that was constructed in state [s0]: the
    eager bundles exist, the bundle events since then are the creations of
    the bundles in the slots and nothing else, and the slots hold different
    bundles, all allocated in the past. *)
Record constructed (s0 s : State) : Prop := {
  c_runtime : is_Some (runtime_bundle (this s));
  c_debug : is_Some (debug_bundle (this s));
  c_trace : exists evs, trace (host s) = trace (host s0) ++ evs /\
                        bundle_events evs ≡ₚ slot_events (this s);
  c_nodup : NoDup (bundles_of (this s));
  c_fresh : forall b, b ∈ bundles_of (this s) -> (bundle_addr b < next_addr (host s))%nat
}.

(** What [get] does for the slot [slot] of module table [m] in state [s]: it
    returns a bundle that is then in the slot; that bundle is the one the
    slot held, with nothing changed, or else a newly compiled one, the
    compilation being the only event; and a later call, after anything that
    happens in between ([acts]), returns the same bundle and changes
    nothing. *)
Definition memoised `{DoubleRounding} (get : M (ptr GumV8Bundle))
    (slot : GumV8Platform -> ptr GumV8Bundle) (m : ModuleTable)
    (s : State) (acts : list Action) : Prop :=
  let o1 := get s in
  let s1 := final o1 in
  let s2 := final (perform_all acts s1) in
  exists b : GumV8Bundle,
    o1 = Ok (Some b) s1 /\
    slot (this s1) = Some b /\
    match slot (this s) with
    | Some b0 => b = b0 /\ s1 = s
    | None => events_since s s1 = [EvBundleNew (isolate (this s)) m b]
    end /\
    get s2 = Ok (Some b) s2.

(** What the engine's shutdown adds to the trace for the tasks it still
    hands over: each is run and deleted on the spot. *)
Definition run_in_place (posts : list Task) : list Event :=
  flat_map (fun t => [EvTaskRun t; EvTaskDelete t]) posts.

(** The guarded free of a lazy slot. *)
Definition slot_free (slot : ptr GumV8Bundle) : list Event :=
  match slot with Some b => [EvBundleFree (Some b)] | None => [] end.

(** The events of the destructor, for a platform object [p] and the tasks
    [posts] the engine hands over while it shuts down. *)
Definition teardown_events (p : GumV8Platform) (posts : list Task) : list Event :=
  [EvStoreDisposing true] ++
  in_isolate (Some (isolate p))
    (slot_free (objc_bundle p) ++ slot_free (java_bundle p) ++
     [EvBundleFree (debug_bundle p); EvBundleFree (runtime_bundle p)]) ++
  [EvIsolateDispose (isolate p); EvV8Dispose] ++
  run_in_place posts ++
  [EvV8ShutdownPlatform; EvObjectUnref (scheduler p);
   EvAllocatorDelete (array_buffer_allocator p)].

(** Two states of one platform, 5.5 ms and 20 ms after its start. *)
Definition example_platform : GumV8Platform :=
  {| disposing := false; objc_bundle := NULL; java_bundle := NULL;
     runtime_bundle := Some (BundleAt 4); debug_bundle := Some (BundleAt 5);
     scheduler := SchedulerAt 0; start_time := 1000000;
     array_buffer_allocator := AllocatorAt 1; isolate := IsolateAt 2 |}.
Definition example_state (now : Z) : State :=
  {| this := example_platform;
     host := {| clock := now; next_addr := 6; trace := []; thread_pool := [];
                js_thread := []; sources := ∅; v8_dispose_posts := [] |} |}.

(** Nothing that happens to a platform changes [start_time] or sets the
    clock back. *)
Definition time_frame (s s' : State) : Prop :=
  start_time (this s') = start_time (this s) /\ (clock (host s) <= clock (host s'))%Z.

(** What running a job adds to the trace, in state [s]. *)
Definition job_events `{DoubleRounding} (s : State) (j : Job) : list Event :=
  match j with
  | Job_HandleTaskRequest request =>
      let body := [EvTaskRun (GumV8TaskRequest.task request);
                   EvTaskDelete (GumV8TaskRequest.task request);
                   EvRequestFree (GumV8TaskRequest.addr request)] in
      match GumV8TaskRequest.isolate request with
      | Some i => in_isolate (Some i) body
      | None => body
      end
  | Job_HandleIdleTaskRequest request =>
      in_isolate (GumV8TaskRequest.isolate request)
        [EvIdleTaskRun (GumV8TaskRequest.task request)
           (double_add (reading s) (double_div (double_lit 1) (double_lit 60)));
         EvIdleTaskDelete (GumV8TaskRequest.task request);
         EvRequestFree (GumV8TaskRequest.addr request)]
  end.

(** The address of the request a job, or a timer's callback, carries. *)
Definition job_addr (j : Job) : nat :=
  match j with
  | Job_HandleTaskRequest request => GumV8TaskRequest.addr request
  | Job_HandleIdleTaskRequest request => GumV8TaskRequest.addr request
  end.
Definition callback_addr (c : SourceCallback) : nat :=
  match c with
  | Callback_HandleDelayedTaskRequest request => GumV8TaskRequest.addr request
  end.

(** What is left of the timers when the main loop destroys [source], whose
    record is [g]: the context's reference is dropped, and the source is
    freed unless someone else still holds one. *)
Definition after_destroy (source : nat) (g : GSource) (m : gmap nat GSource)
    : gmap nat GSource :=
  if decide (ref_count g <= 1)%nat then delete source m
  else alter (fun g' => set_ref_count (pred (ref_count g)) (set_attached_to None g'))
         source m.

(** The fields of the platform object that no operation writes. *)
Definition same_identity (p p' : GumV8Platform) : Prop :=
  disposing p' = disposing p /\
  isolate p' = isolate p /\
  scheduler p' = scheduler p /\
  start_time p' = start_time p /\
  array_buffer_allocator p' = array_buffer_allocator p /\
  runtime_bundle p' = runtime_bundle p /\
  debug_bundle p' = debug_bundle p.

(** The requests that were allocated and those that were released, in the
    order of the trace. *)
Definition new_requests (l : list Event) : list nat :=
  omap (fun e => match e with EvRequestNew a => Some a | _ => None end) l.
Definition freed_requests (l : list Event) : list nat :=
  omap (fun e => match e with EvRequestFree a => Some a | _ => None end) l.

(** A run during which nothing is submitted: the queues and the timers can
    only lose entries, and no request is allocated. *)
Definition winds_down (s s' : State) : Prop :=
  disposing (this s') = true /\
  thread_pool (host s') `sublist_of` thread_pool (host s) /\
  js_thread (host s') `sublist_of` js_thread (host s) /\
  dom (sources (host s')) ⊆ dom (sources (host s)) /\
  exists evs, trace (host s') = trace (host s) ++ evs /\ new_requests evs = [].

(** The scopes that are open, innermost first. *)
Inductive Scope :=
| InLocker (i : ptr Isolate)
| InIsolateScope (i : ptr Isolate)
| InHandleScope (i : ptr Isolate)
| InContextScope (c : Context).

#[global] Instance Context_eq_dec : EqDecision Context.
Proof. solve_decision. Defined.

(** One event against the open scopes: an entry opens a scope, an exit must
    close the innermost one and name the same isolate or context, any other
    event leaves the scopes alone. *)
Definition scope_step (open : list Scope) (e : Event) : option (list Scope) :=
  match e with
  | EvLockerEnter i => Some (InLocker i :: open)
  | EvIsolateScopeEnter i => Some (InIsolateScope i :: open)
  | EvHandleScopeEnter i => Some (InHandleScope i :: open)
  | EvContextScopeEnter c => Some (InContextScope c :: open)
  | EvLockerExit i =>
      match open with
      | InLocker j :: rest => if decide (j = i) then Some rest else None
      | _ => None
      end
  | EvIsolateScopeExit i =>
      match open with
      | InIsolateScope j :: rest => if decide (j = i) then Some rest else None
      | _ => None
      end
  | EvHandleScopeExit i =>
      match open with
      | InHandleScope j :: rest => if decide (j = i) then Some rest else None
      | _ => None
      end
  | EvContextScopeExit c =>
      match open with
      | InContextScope d :: rest => if decide (d = c) then Some rest else None
      | _ => None
      end
  | _ => Some open
  end.

(** The scopes that are open after a list of events, or [None] when an exit
    did not match. *)
Fixpoint scopes_after (open : list Scope) (evs : list Event) : option (list Scope) :=
  match evs with
  | [] => Some open
  | e :: evs' =>
      match scope_step open e with
      | Some open' => scopes_after open' evs'
      | None => None
      end
  end.

(** Events that leave the scopes as they found them, whatever was open. *)
Definition well_nested (evs : list Event) : Prop :=
  forall open, scopes_after open evs = Some open.

(** The entries and exits of scopes. *)
Definition is_scope_event (e : Event) : bool :=
  match e with
  | EvLockerEnter _ | EvLockerExit _ | EvIsolateScopeEnter _ | EvIsolateScopeExit _
  | EvHandleScopeEnter _ | EvHandleScopeExit _
  | EvContextScopeEnter _ | EvContextScopeExit _ => true
  | _ => false
  end.

(** The requests that wait for their handler: those of the jobs in the two
    queues and those of the timers. *)
Definition timer_request (entry : nat * GSource) : option nat :=
  callback_addr <$> callback entry.2.
Definition timer_requests (m : gmap nat GSource) : list nat :=
  omap timer_request (map_to_list m).
Definition pending_requests (h : Host) : list nat :=
  (job_addr <$> thread_pool h) ++
  ((fun entry : Z * Job => job_addr entry.2) <$> js_thread h) ++
  timer_requests (sources h).

(** The timers are those the platform made: allocated in the past, attached,
    with a callback, and held by the context alone. *)
Definition timers_ok (h : Host) : Prop :=
  forall i g, sources h !! i = Some g ->
    (i < next_addr h)%nat /\ is_Some (attached_to g) /\ is_Some (callback g) /\
    ref_count g = 1%nat.

(** The books of the requests since state [s0]: every request allocated
    since then has either been released or is waiting, and none was
    allocated twice. *)
Record accounted (s0 s : State) : Prop := {
  a_trace : exists evs,
    trace (host s) = trace (host s0) ++ evs /\
    new_requests evs ≡ₚ freed_requests evs ++ pending_requests (host s) /\
    NoDup (new_requests evs) /\
    (forall a, a ∈ new_requests evs -> (a < next_addr (host s))%nat);
  a_timers : timers_ok (host s)
}.

(** The blocks of a heap lie below the address GLib hands out next. *)
Definition heap_ok (h : GHeap) : Prop :=
  forall a block, blocks h !! a = Some block -> (a < brk h)%nat.


(** * Properties *)

(** Runs a straight-line piece of the model on a state whose components are
    variables (see [open_state]). *)
Ltac run :=
  cbv beta iota zeta delta
    [ret bind get_this modify_this get_host modify_host emit alloc g_assert negb
     g_get_monotonic_time V8_InitializePlatform V8_Initialize V8_ShutdownPlatform
     GumArrayBufferAllocator_new GumArrayBufferAllocator_delete Isolate_New
     Isolate_SetFatalErrorHandler Isolate_Dispose Context_New Locker Isolate_Scope
     HandleScope Context_Scope Task_Run IdleTask_Run delete_task Task_class IdleTask_class
     gum_v8_bundle_new gum_v8_bundle_free
     gum_script_scheduler_new gum_script_scheduler_push_job_on_thread_pool
     gum_script_scheduler_push_job_on_js_thread gum_script_scheduler_get_js_context
     g_object_unref modify_sources g_timeout_source_new g_source_set_priority
     g_source_set_callback g_source_attach
     GumV8TaskRequest_new GumV8TaskRequest_delete store_disposing
     set_clock set_next_addr set_trace set_thread_pool set_js_thread set_sources
     set_v8_dispose_posts set_disposing set_objc_bundle set_java_bundle set_runtime_bundle
     set_debug_bundle set_scheduler set_start_time set_array_buffer_allocator set_isolate
     final aborted
     this host clock next_addr trace thread_pool js_thread sources v8_dispose_posts
     disposing objc_bundle java_bundle runtime_bundle debug_bundle scheduler start_time
     array_buffer_allocator isolate
     GumV8TaskRequest.addr GumV8TaskRequest.platform GumV8TaskRequest.isolate
     GumV8TaskRequest.task
     interval priority callback attached_to ref_count
     set_priority set_callback set_attached_to set_ref_count].
Tactic Notation "run" "in" hyp(H) :=
  cbv beta iota zeta delta
    [set_clock set_next_addr set_trace set_thread_pool set_js_thread set_sources
     set_v8_dispose_posts set_disposing set_objc_bundle set_java_bundle set_runtime_bundle
     set_debug_bundle set_scheduler set_start_time set_array_buffer_allocator set_isolate
     final aborted
     this host clock next_addr trace thread_pool js_thread sources v8_dispose_posts
     disposing objc_bundle java_bundle runtime_bundle debug_bundle scheduler start_time
     array_buffer_allocator isolate] in H.
Ltac open_state s :=
  destruct s as [[dis objc java rt dbg sch st alc iso] [clk nxt tr pool js src posts]].
Ltac flatten_trace := rewrite <- ?app_assoc; cbn [app].

Lemma events_since_app s0 s evs :
  trace (host s) = trace (host s0) ++ evs -> events_since s0 s = evs.
Proof. intros E. unfold events_since. rewrite E. apply drop_app_length. Qed.

Ltac solve_events := apply events_since_app; run; flatten_trace; reflexivity.

(** ** Background dispatch *)

(** C1.  [CallOnBackgroundThread] never aborts and leaves the platform object
    as it is.  When [disposing] is set it runs the task and deletes it on the
    spot, and no queue or timer changes; otherwise it allocates one request
    with no isolate for the task and appends it, with [HandleTaskRequest], to
    the thread pool's queue, and the task is not run. *)
Theorem CallOnBackgroundThread_dispatch (task : Task) (e : ExpectedRuntime) (s : State) :
  let o := CallOnBackgroundThread task e s in
  let s' := final o in
  aborted o = false /\
  this s' = this s /\
  js_thread (host s') = js_thread (host s) /\
  sources (host s') = sources (host s) /\
  if disposing (this s) then
    events_since s s' = [EvTaskRun task; EvTaskDelete task] /\
    thread_pool (host s') = thread_pool (host s)
  else
    let request :=
      GumV8TaskRequest.mk (next_addr (host s)) ThisPlatform NULL task in
    events_since s s' = [EvRequestNew (next_addr (host s))] /\
    thread_pool (host s') = thread_pool (host s) ++ [Job_HandleTaskRequest request].
Proof.
  unfold CallOnBackgroundThread. open_state s.
  destruct dis; run;
    repeat split; try reflexivity; solve_events.
Qed.

(** C10.  The [expected_runtime] hint has no influence on
    [CallOnBackgroundThread]: the outcome, that is the result together with
    the whole final state (platform, trace, queues), is the same for any two
    hints. *)
Theorem CallOnBackgroundThread_ignores_expected_runtime
    (task : Task) (e1 e2 : ExpectedRuntime) (s : State) :
  CallOnBackgroundThread task e1 s = CallOnBackgroundThread task e2 s.
Proof. destruct e1, e2; reflexivity. Qed.

(** ** The dispatch handlers *)

Lemma HandleTaskRequest_run (request : GumV8TaskRequest.t Task) (s : State) :
  let body := [EvTaskRun (GumV8TaskRequest.task request);
               EvTaskDelete (GumV8TaskRequest.task request);
               EvRequestFree (GumV8TaskRequest.addr request)] in
  HandleTaskRequest request s =
  Ok tt (mkState (this s)
           (set_trace
              (trace (host s) ++
               match GumV8TaskRequest.isolate request with
               | Some i => in_isolate (Some i) body
               | None => body
               end) (host s))).
Proof.
  unfold HandleTaskRequest, in_isolate. open_state s. destruct request as [a [] [i|] t];
    run; flatten_trace; reflexivity.
Qed.

Lemma count_body_run (t : Task) (a : nat) (i : ptr Isolate) :
  let body := [EvTaskRun t; EvTaskDelete t; EvRequestFree a] in
  count (is_run_of t) body = 1%nat /\ count (is_delete_of t) body = 1%nat /\
  count (is_free_of a) body = 1%nat /\
  count (is_run_of t) (in_isolate i body) = 1%nat /\
  count (is_delete_of t) (in_isolate i body) = 1%nat /\
  count (is_free_of a) (in_isolate i body) = 1%nat.
Proof.
  unfold count, in_isolate; cbn.
  rewrite !bool_decide_eq_true_2 by reflexivity. cbn. tauto.
Qed.

Lemma MonotonicallyIncreasingTime_pure `{DoubleRounding} (s : State) :
  MonotonicallyIncreasingTime s = Ok (reading s) s.
Proof. unfold reading, MonotonicallyIncreasingTime. open_state s. reflexivity. Qed.

Lemma HandleIdleTaskRequest_run `{DoubleRounding}
    (request : GumV8TaskRequest.t IdleTask) (s : State) :
  let deadline := double_add (reading s) (double_div (double_lit 1) (double_lit 60)) in
  HandleIdleTaskRequest request s =
  Ok tt (mkState (this s)
           (set_trace
              (trace (host s) ++
               in_isolate (GumV8TaskRequest.isolate request)
                 [EvIdleTaskRun (GumV8TaskRequest.task request) deadline;
                  EvIdleTaskDelete (GumV8TaskRequest.task request);
                  EvRequestFree (GumV8TaskRequest.addr request)]) (host s))).
Proof.
  unfold HandleIdleTaskRequest, in_isolate, reading, Platform_MonotonicallyIncreasingTime,
    MonotonicallyIncreasingTime.
  open_state s. destruct request as [a [] i t]. run. flatten_trace. reflexivity.
Qed.

(** C8.  Whatever the state, a handler that is given a request does not
    abort; it adds to the trace the run of the task, the deletion of the task
    and the release of the request, each exactly once and in this order,
    inside the three scopes of the isolate when the request carries one (for
    [HandleTaskRequest]; [HandleIdleTaskRequest] always enters them) and bare
    otherwise; and it queues nothing, so the request is not used again.
    [HandleDelayedTaskRequest] does what [HandleTaskRequest] does and returns
    [FALSE]. *)
Theorem handlers_execute_once `{DoubleRounding} (s : State) :
  (forall request : GumV8TaskRequest.t Task,
     let t := GumV8TaskRequest.task request in
     let a := GumV8TaskRequest.addr request in
     let body := [EvTaskRun t; EvTaskDelete t; EvRequestFree a] in
     let o := HandleTaskRequest request s in
     let evs := events_since s (final o) in
     aborted o = false /\
     evs = match GumV8TaskRequest.isolate request with
           | Some i => in_isolate (Some i) body
           | None => body
           end /\
     count (is_run_of t) evs = 1%nat /\
     count (is_delete_of t) evs = 1%nat /\
     count (is_free_of a) evs = 1%nat /\
     same_platform_and_queues s (final o) /\
     HandleDelayedTaskRequest request s = Ok false (final o)) /\
  (forall request : GumV8TaskRequest.t IdleTask,
     let t := GumV8TaskRequest.task request in
     let a := GumV8TaskRequest.addr request in
     let o := HandleIdleTaskRequest request s in
     let evs := events_since s (final o) in
     aborted o = false /\
     (exists deadline,
        evs = in_isolate (GumV8TaskRequest.isolate request)
                [EvIdleTaskRun t deadline; EvIdleTaskDelete t; EvRequestFree a]) /\
     count (is_idle_run_of t) evs = 1%nat /\
     count (is_idle_delete_of t) evs = 1%nat /\
     count (is_free_of a) evs = 1%nat /\
     same_platform_and_queues s (final o)).
Proof.
  split; intros request t a.
  - intros body o evs.
    assert (Hevs : evs = match GumV8TaskRequest.isolate request with
                         | Some i => in_isolate (Some i) body
                         | None => body
                         end).
    { subst evs o. rewrite HandleTaskRequest_run. apply events_since_app. reflexivity. }
    subst o. unfold HandleDelayedTaskRequest, bind, same_platform_and_queues.
    rewrite HandleTaskRequest_run in *. cbn.
    split; [reflexivity|]. split; [exact Hevs|].
    rewrite Hevs.
    pose proof (count_body_run t a (GumV8TaskRequest.isolate request)) as Hc.
    cbn zeta in Hc. fold body in Hc.
    destruct (GumV8TaskRequest.isolate request);
      repeat split; try reflexivity; tauto.
  - intros o evs.
    assert (Hevs : evs = in_isolate (GumV8TaskRequest.isolate request)
              [EvIdleTaskRun t
                 (double_add (reading s) (double_div (double_lit 1) (double_lit 60)));
               EvIdleTaskDelete t; EvRequestFree a]).
    { subst evs o. rewrite HandleIdleTaskRequest_run. apply events_since_app. reflexivity. }
    subst o. unfold same_platform_and_queues. rewrite HandleIdleTaskRequest_run in *. cbn.
    split; [reflexivity|]. split; [eexists; exact Hevs|].
    rewrite Hevs. unfold count, in_isolate. cbn.
    rewrite !bool_decide_eq_true_2 by reflexivity. cbn.
    repeat split; reflexivity.
Qed.

(** ** Foreground dispatch *)

Lemma g_source_unref_run (source : nat) (g : GSource) (s : State) :
  sources (host s) !! source = Some g ->
  g_source_unref source s =
  Ok tt (mkState (this s)
           (set_sources
              (if decide (ref_count g <= 1)%nat then delete source (sources (host s))
               else alter (set_ref_count (pred (ref_count g))) source (sources (host s)))
              (host s))).
Proof.
  intros Hg. unfold g_source_unref. open_state s. run. run in Hg. rewrite Hg. reflexivity.
Qed.

Lemma CallDelayedOnForegroundThread_run `{DoubleRounding}
    (for_isolate : ptr Isolate) (task : Task) (delay_in_seconds : double) (s : State) :
  disposing (this s) = false ->
  let a := next_addr (host s) in
  let request := GumV8TaskRequest.mk a ThisPlatform for_isolate task in
  CallDelayedOnForegroundThread for_isolate task delay_in_seconds s =
  Ok tt (mkState (this s)
           (set_sources
              (<[S a := delayed_source (this s) request delay_in_seconds]> (sources (host s)))
              (set_trace (trace (host s) ++ [EvRequestNew a])
                 (set_next_addr (S (S a)) (host s))))).
Proof.
  intros Hd. unfold CallDelayedOnForegroundThread, delayed_source.
  open_state s. run in Hd. subst. run.
  rewrite !alter_insert_eq.
  erewrite g_source_unref_run by (run; apply lookup_insert_eq).
  run. rewrite decide_False by (cbn; lia). rewrite alter_insert_eq. reflexivity.
Qed.

(** C2.  Each of [CallOnForegroundThread], [CallDelayedOnForegroundThread]
    and [CallIdleOnForegroundThread] asserts that [disposing] is not set
    before anything else.  When [disposing] is set the call aborts in the
    very state it was made in: no request is allocated, nothing is queued, no
    timer is created.  When [disposing] is not set the call does not abort,
    and the request it allocates is queued on the JS thread (or, for the
    delayed call, installed as the callback of a new timer). *)
Theorem foreground_dispatch_asserts_not_disposing `{DoubleRounding}
    (for_isolate : ptr Isolate) (task : Task) (idle_task : IdleTask)
    (delay_in_seconds : double) (s : State) :
  let o1 := CallOnForegroundThread for_isolate task s in
  let o2 := CallDelayedOnForegroundThread for_isolate task delay_in_seconds s in
  let o3 := CallIdleOnForegroundThread for_isolate idle_task s in
  if disposing (this s) then
    o1 = Abort s /\ o2 = Abort s /\ o3 = Abort s
  else
    let a := next_addr (host s) in
    aborted o1 = false /\ aborted o2 = false /\ aborted o3 = false /\
    js_thread (host (final o1)) =
      js_thread (host s) ++
      [(G_PRIORITY_DEFAULT,
        Job_HandleTaskRequest (GumV8TaskRequest.mk a ThisPlatform for_isolate task))] /\
    (exists g, sources (host (final o2)) !! S a = Some g /\
       callback g = Some (Callback_HandleDelayedTaskRequest
                            (GumV8TaskRequest.mk a ThisPlatform for_isolate task))) /\
    js_thread (host (final o3)) =
      js_thread (host s) ++
      [(G_PRIORITY_DEFAULT,
        Job_HandleIdleTaskRequest
          (GumV8TaskRequest.mk a ThisPlatform for_isolate idle_task))].
Proof.
  intros o1 o2 o3. destruct (disposing (this s)) eqn:Hd.
  - subst o1 o2 o3.
    unfold CallOnForegroundThread, CallDelayedOnForegroundThread,
      CallIdleOnForegroundThread.
    open_state s. run in Hd. subst. run. repeat split; reflexivity.
  - subst o2. rewrite (CallDelayedOnForegroundThread_run _ _ _ _ Hd).
    subst o1 o3. unfold CallOnForegroundThread, CallIdleOnForegroundThread.
    open_state s. run in Hd. subst. run.
    repeat split; try reflexivity.
    eexists. split; [apply lookup_insert_eq | reflexivity].
Qed.

(** ** Construction *)

(** The constructor, run on any state. *)
Lemma GumV8Platform_new_run (s0 : State) :
  let o := GumV8Platform_new s0 in
  let a := next_addr (host s0) in
  let i := IsolateAt (2 + a) in
  let c := ContextAt (3 + a) in
  aborted o = false /\
  trace (host (final o)) = trace (host s0) ++
    [EvStoreDisposing false;
     EvSchedulerNew (SchedulerAt a);
     EvAllocatorNew (AllocatorAt (1 + a));
     EvV8InitializePlatform;
     EvV8Initialize;
     EvIsolateNew (AllocatorAt (1 + a)) i;
     EvSetFatalErrorHandler i;
     EvLockerEnter (Some i); EvIsolateScopeEnter (Some i); EvHandleScopeEnter (Some i);
     EvContextNew i c;
     EvContextScopeEnter c;
     EvBundleNew i gumjs_runtime_modules (BundleAt (4 + a));
     EvBundleNew i gumjs_debug_modules (BundleAt (5 + a));
     EvContextScopeExit c;
     EvHandleScopeExit (Some i); EvIsolateScopeExit (Some i); EvLockerExit (Some i)] /\
  this (final o) =
    {| disposing := false;
       objc_bundle := NULL;
       java_bundle := NULL;
       runtime_bundle := Some (BundleAt (4 + a));
       debug_bundle := Some (BundleAt (5 + a));
       scheduler := SchedulerAt a;
       start_time := clock (host s0);
       array_buffer_allocator := AllocatorAt (1 + a);
       isolate := i |} /\
  next_addr (host (final o)) = (6 + a)%nat /\
  clock (host (final o)) = clock (host s0) /\
  thread_pool (host (final o)) = thread_pool (host s0) /\
  js_thread (host (final o)) = js_thread (host s0) /\
  sources (host (final o)) = sources (host s0).
Proof.
  unfold GumV8Platform_new, InitRuntime. open_state s0. run. flatten_trace.
  repeat split; reflexivity.
Qed.

(** C9.  Whatever the storage of the object held before, the constructor does
    not abort and makes, the member initialisers in the order of the
    initialiser list and then the body: a new scheduler, which the platform
    keeps; the buffer allocator; the engine's initialisation; exactly one
    isolate, created with that allocator; the installation of the fatal error
    handler on it; and, inside one scope of the isolate's lock that is left
    again before the constructor returns, the compilation of the runtime
    bundle and of the debug bundle.  On return both of these slots are set,
    the two lazy slots are null, [disposing] is clear, [start_time] is the
    clock's value, and nothing has been queued. *)
Theorem GumV8Platform_new_initialises (s0 : State) :
  let o := GumV8Platform_new s0 in
  let a := next_addr (host s0) in
  let i := IsolateAt (2 + a) in
  let c := ContextAt (3 + a) in
  aborted o = false /\
  trace (host (final o)) = trace (host s0) ++
    [EvStoreDisposing false;
     EvSchedulerNew (SchedulerAt a);
     EvAllocatorNew (AllocatorAt (1 + a));
     EvV8InitializePlatform;
     EvV8Initialize;
     EvIsolateNew (AllocatorAt (1 + a)) i;
     EvSetFatalErrorHandler i;
     EvLockerEnter (Some i); EvIsolateScopeEnter (Some i); EvHandleScopeEnter (Some i);
     EvContextNew i c;
     EvContextScopeEnter c;
     EvBundleNew i gumjs_runtime_modules (BundleAt (4 + a));
     EvBundleNew i gumjs_debug_modules (BundleAt (5 + a));
     EvContextScopeExit c;
     EvHandleScopeExit (Some i); EvIsolateScopeExit (Some i); EvLockerExit (Some i)] /\
  this (final o) =
    {| disposing := false;
       objc_bundle := NULL;
       java_bundle := NULL;
       runtime_bundle := Some (BundleAt (4 + a));
       debug_bundle := Some (BundleAt (5 + a));
       scheduler := SchedulerAt a;
       start_time := clock (host s0);
       array_buffer_allocator := AllocatorAt (1 + a);
       isolate := i |} /\
  next_addr (host (final o)) = (6 + a)%nat /\
  clock (host (final o)) = clock (host s0) /\
  thread_pool (host (final o)) = thread_pool (host s0) /\
  js_thread (host (final o)) = js_thread (host s0) /\
  sources (host (final o)) = sources (host s0).
Proof. exact (GumV8Platform_new_run s0). Qed.

(** ** Bundles: what a run leaves untouched *)

Lemma bundle_events_app l1 l2 :
  bundle_events (l1 ++ l2) = bundle_events l1 ++ bundle_events l2.
Proof. apply filter_app. Qed.

Lemma bundle_events_snoc_other l e :
  is_bundle_event e = false -> bundle_events (l ++ [e]) = bundle_events l.
Proof.
  intros He. rewrite bundle_events_app. unfold bundle_events at 2. cbn.
  rewrite decide_False by (rewrite He; exact id). apply app_nil_r.
Qed.

Lemma bundle_frame_refl s : bundle_frame s s.
Proof.
  unfold bundle_frame. repeat split; try (reflexivity || lia).
  exists []. rewrite app_nil_r. split; reflexivity.
Qed.

Lemma bundle_frame_trans s1 s2 s3 :
  bundle_frame s1 s2 -> bundle_frame s2 s3 -> bundle_frame s1 s3.
Proof.
  unfold bundle_frame.
  intros (?&(evs1&E1&B1)&?&?) (?&(evs2&E2&B2)&?&?).
  repeat split; try (congruence || lia).
  exists (evs1 ++ evs2). rewrite E2, E1, <- app_assoc, bundle_events_app, B1, B2.
  split; reflexivity.
Qed.

Lemma framed_ret {A} (a : A) : framed (ret a).
Proof. intros s. apply bundle_frame_refl. Qed.

Lemma framed_bind {A B} (m : M A) (k : A -> M B) :
  framed m -> (forall a, framed (k a)) -> framed (bind m k).
Proof.
  intros Hm Hk s. unfold bind. specialize (Hm s).
  destruct (m s) as [a s'|s']; cbn in *; [|exact Hm].
  eapply bundle_frame_trans; [exact Hm | apply Hk].
Qed.

Lemma framed_get_this : framed get_this.
Proof. intros s. apply bundle_frame_refl. Qed.

Lemma framed_get_host : framed get_host.
Proof. intros s. apply bundle_frame_refl. Qed.

Lemma framed_emit e : is_bundle_event e = false -> framed (emit e).
Proof.
  intros He s. unfold bundle_frame. open_state s. run.
  repeat split; try (reflexivity || lia).
  exists [e]. split; [reflexivity|].
  apply (bundle_events_snoc_other [] e He).
Qed.

Lemma framed_alloc : framed alloc.
Proof.
  intros s. unfold bundle_frame. open_state s. run.
  repeat split; try (reflexivity || lia).
  exists []. rewrite app_nil_r. split; reflexivity.
Qed.

Lemma framed_g_assert b : framed (g_assert b).
Proof. intros s. unfold g_assert. destruct b; apply bundle_frame_refl. Qed.

Lemma framed_modify_host (f : Host -> Host) :
  (forall h, trace (f h) = trace h /\ next_addr (f h) = next_addr h /\
             (clock h <= clock (f h))%Z) ->
  framed (modify_host f).
Proof.
  intros Hf s. unfold bundle_frame, modify_host. cbn.
  destruct (Hf (host s)) as (-> & -> & ?).
  repeat split; try (reflexivity || lia).
  exists []. rewrite app_nil_r. split; reflexivity.
Qed.

Lemma framed_if {A} (b : bool) (m1 m2 : M A) :
  framed m1 -> framed m2 -> framed (if b then m1 else m2).
Proof. destruct b; auto. Qed.

Create HintDb framed.
#[global] Hint Resolve framed_ret framed_get_this framed_get_host framed_alloc
  framed_g_assert framed_if : framed.

(** Proves [framed m] for a straight-line [m] built from the primitives. *)
Ltac framed_step :=
  first
    [ solve [ auto with framed ]
    | apply framed_emit; reflexivity
    | apply framed_modify_host; intros [? ? ? ? ? ? ?]; cbn; repeat split;
      (reflexivity || lia)
    | apply framed_bind; [| intros ? ] ].
Ltac prove_framed := repeat framed_step.

Lemma framed_scopes {A} (i : ptr Isolate) (block : M A) :
  framed block -> framed (Locker i (Isolate_Scope i (HandleScope i block))).
Proof. intros Hb. unfold Locker, Isolate_Scope, HandleScope. prove_framed. Qed.

Lemma framed_GumV8TaskRequest_new {T} platform i (task : T) :
  framed (GumV8TaskRequest_new platform i task).
Proof. unfold GumV8TaskRequest_new. prove_framed. Qed.

Lemma framed_delete_Task (request : GumV8TaskRequest.t Task) :
  framed (GumV8TaskRequest_delete request).
Proof. unfold GumV8TaskRequest_delete, delete_task, Task_class. prove_framed. Qed.

Lemma framed_delete_IdleTask (request : GumV8TaskRequest.t IdleTask) :
  framed (GumV8TaskRequest_delete request).
Proof. unfold GumV8TaskRequest_delete, delete_task, IdleTask_class. prove_framed. Qed.

#[global] Hint Resolve framed_scopes framed_GumV8TaskRequest_new framed_delete_Task
  framed_delete_IdleTask : framed.

Lemma framed_CallOnBackgroundThread task e : framed (CallOnBackgroundThread task e).
Proof.
  unfold CallOnBackgroundThread. apply framed_bind; [auto with framed|]. intros p.
  unfold Task_Run, delete_task, Task_class, gum_script_scheduler_push_job_on_thread_pool.
  destruct (disposing p); prove_framed.
Qed.

Lemma framed_CallOnForegroundThread i task : framed (CallOnForegroundThread i task).
Proof.
  unfold CallOnForegroundThread, gum_script_scheduler_push_job_on_js_thread. prove_framed.
Qed.

Lemma framed_CallIdleOnForegroundThread i task : framed (CallIdleOnForegroundThread i task).
Proof.
  unfold CallIdleOnForegroundThread, gum_script_scheduler_push_job_on_js_thread.
  prove_framed.
Qed.

Lemma framed_HandleTaskRequest request : framed (HandleTaskRequest request).
Proof.
  unfold HandleTaskRequest, Task_Run.
  destruct (GumV8TaskRequest.isolate request); prove_framed.
Qed.

Lemma framed_V8_Dispose : framed V8_Dispose.
Proof.
  unfold V8_Dispose. prove_framed.
  match goal with |- framed (foldr _ _ ?l) => generalize l end.
  intros posts. induction posts as [|t posts IH]; cbn.
  - apply framed_ret.
  - apply framed_bind; [apply framed_CallOnBackgroundThread | intros _; exact IH].
Qed.

#[global] Hint Resolve framed_CallOnBackgroundThread framed_CallOnForegroundThread
  framed_CallIdleOnForegroundThread framed_HandleTaskRequest framed_V8_Dispose : framed.

Section FramedWithDoubles.
Context `{DoubleRounding}.

Lemma framed_modify_sources f : framed (modify_sources f).
Proof. unfold modify_sources. prove_framed. Qed.

Lemma framed_CallDelayedOnForegroundThread i task d :
  framed (CallDelayedOnForegroundThread i task d).
Proof.
  unfold CallDelayedOnForegroundThread, g_timeout_source_new, g_source_set_priority,
    g_source_set_callback, g_source_attach, g_source_unref.
  pose proof framed_modify_sources. prove_framed.
Qed.

Lemma framed_MonotonicallyIncreasingTime : framed MonotonicallyIncreasingTime.
Proof. unfold MonotonicallyIncreasingTime, g_get_monotonic_time. prove_framed. Qed.

Lemma framed_HandleIdleTaskRequest request : framed (HandleIdleTaskRequest request).
Proof.
  unfold HandleIdleTaskRequest, Platform_MonotonicallyIncreasingTime, IdleTask_Run.
  destruct (GumV8TaskRequest.platform request).
  pose proof framed_MonotonicallyIncreasingTime. prove_framed.
Qed.

Lemma framed_run_job j : framed (run_job j).
Proof.
  destruct j; cbn; [apply framed_HandleTaskRequest | apply framed_HandleIdleTaskRequest].
Qed.

Lemma framed_thread_pool_step n : framed (thread_pool_step n).
Proof.
  unfold thread_pool_step. apply framed_bind; [auto with framed|]. intros h.
  pose proof framed_run_job. destruct (thread_pool h !! n); prove_framed.
Qed.

Lemma framed_js_thread_step : framed js_thread_step.
Proof.
  unfold js_thread_step. apply framed_bind; [auto with framed|]. intros h.
  pose proof framed_run_job. destruct (js_thread h) as [|[] ?]; prove_framed.
Qed.

Lemma framed_g_main_context_dispatch_source source :
  framed (g_main_context_dispatch_source source).
Proof.
  unfold g_main_context_dispatch_source. apply framed_bind; [auto with framed|].
  intros h. destruct (sources h !! source) as [g|]; [|apply framed_ret].
  destruct (attached_to g); [|apply framed_ret].
  destruct (callback g) as [[request]|]; [|apply framed_ret].
  cbn. unfold HandleDelayedTaskRequest, g_source_destroy, g_source_unref.
  pose proof framed_modify_sources. prove_framed.
Qed.

Lemma framed_clock_advance dt : framed (clock_advance dt).
Proof. unfold clock_advance. prove_framed. Qed.

Lemma framed_perform a : is_getter a = false -> framed (perform a).
Proof.
  destruct a; cbn; try discriminate; intros _;
    auto using framed_CallDelayedOnForegroundThread, framed_thread_pool_step,
      framed_js_thread_step, framed_g_main_context_dispatch_source,
      framed_clock_advance with framed.
  all: unfold IdleTasksEnabled; pose proof framed_MonotonicallyIncreasingTime;
    prove_framed.
Qed.

End FramedWithDoubles.

(** ** The lazy bundles *)

Lemma GetObjCBundle_run (s : State) :
  GetObjCBundle s =
  match objc_bundle (this s) with
  | Some b => Ok (Some b) s
  | None =>
      let b := BundleAt (next_addr (host s)) in
      Ok (Some b)
        (mkState (set_objc_bundle (Some b) (this s))
           (set_trace (trace (host s) ++ [EvBundleNew (isolate (this s)) gumjs_objc_modules b])
              (set_next_addr (S (next_addr (host s))) (host s))))
  end.
Proof.
  unfold GetObjCBundle. open_state s.
  destruct objc; reflexivity.
Qed.

Lemma GetJavaBundle_run (s : State) :
  GetJavaBundle s =
  match java_bundle (this s) with
  | Some b => Ok (Some b) s
  | None =>
      let b := BundleAt (next_addr (host s)) in
      Ok (Some b)
        (mkState (set_java_bundle (Some b) (this s))
           (set_trace (trace (host s) ++ [EvBundleNew (isolate (this s)) gumjs_java_modules b])
              (set_next_addr (S (next_addr (host s))) (host s))))
  end.
Proof.
  unfold GetJavaBundle. open_state s.
  destruct java; reflexivity.
Qed.

Lemma omap_bundle_events {B} (f : Event -> option B) (l : list Event) :
  (forall e, is_bundle_event e = false -> f e = None) ->
  omap f (bundle_events l) = omap f l.
Proof.
  intros Hf. induction l as [|e l IH]; [reflexivity|].
  unfold bundle_events in *.
  destruct (is_bundle_event e) eqn:E.
  - rewrite filter_cons_True by (rewrite E; exact I). cbn.
    rewrite IH. reflexivity.
  - rewrite filter_cons_False by (rewrite E; exact id). cbn.
    rewrite (Hf e E), IH. reflexivity.
Qed.

Lemma compiled_modules_bundle_events l :
  compiled_modules (bundle_events l) = compiled_modules l.
Proof. apply omap_bundle_events. intros []; (discriminate || reflexivity). Qed.

Lemma created_bundles_bundle_events l :
  created_bundles (bundle_events l) = created_bundles l.
Proof. apply omap_bundle_events. intros []; (discriminate || reflexivity). Qed.

Lemma freed_bundles_bundle_events l :
  freed_bundles (bundle_events l) = freed_bundles l.
Proof. apply omap_bundle_events. intros []; (discriminate || reflexivity). Qed.

Lemma created_slot_events p : created_bundles (slot_events p) = bundles_of p.
Proof.
  unfold slot_events, bundles_of, slot_event.
  destruct (objc_bundle p), (java_bundle p), (debug_bundle p), (runtime_bundle p);
    reflexivity.
Qed.

Lemma constructed_new (s0 : State) : constructed s0 (final (GumV8Platform_new s0)).
Proof.
  pose proof (GumV8Platform_new_run s0) as H. cbn zeta in H.
  destruct H as (_ & Htr & Hthis & Hnext & _).
  set (s1 := final (GumV8Platform_new s0)) in *. clearbody s1.
  split; rewrite ?Hthis, ?Hnext; cbn.
  - eexists; reflexivity.
  - eexists; reflexivity.
  - eexists. split; [exact Htr|].
    unfold slot_events, bundle_events. cbn. apply perm_swap.
  - unfold bundles_of. cbn. apply NoDup_cons. split.
    + rewrite list_elem_of_singleton. intros [=]. lia.
    + apply NoDup_singleton.
  - unfold bundles_of. cbn. intros b Hb.
    apply elem_of_cons in Hb as [->|Hb]; [cbn; lia|].
    apply list_elem_of_singleton in Hb as ->. cbn. lia.
Qed.

Lemma constructed_framed s0 s s' :
  constructed s0 s -> bundle_frame s s' -> constructed s0 s'.
Proof.
  intros [Hr Hd (evs & Et & Ep) Hn Hf] (Ethis & (evs' & Et' & Eb) & Hnext & _).
  split; rewrite ?Ethis; try assumption.
  - exists (evs ++ evs'). rewrite Et', Et, <- app_assoc. split; [reflexivity|].
    rewrite bundle_events_app, Eb, app_nil_r. exact Ep.
  - intros b Hb. specialize (Hf b Hb). lia.
Qed.

Lemma fresh_not_in_bundles s0 s :
  constructed s0 s -> BundleAt (next_addr (host s)) ∉ bundles_of (this s).
Proof. intros C Hin. apply (c_fresh _ _ C) in Hin. cbn in Hin. lia. Qed.

Lemma bundles_of_set_objc_bundle b p :
  objc_bundle p = None -> bundles_of (set_objc_bundle (Some b) p) ≡ₚ b :: bundles_of p.
Proof. destruct p as [? [] ? ? ? ? ? ? ?]; [discriminate | reflexivity]. Qed.

Lemma bundles_of_set_java_bundle b p :
  java_bundle p = None -> bundles_of (set_java_bundle (Some b) p) ≡ₚ b :: bundles_of p.
Proof.
  destruct p as [? [] [] ? ? ? ? ? ?]; try discriminate; intros _; unfold bundles_of; cbn.
  - apply perm_swap.
  - reflexivity.
Qed.

Lemma slot_events_set_objc_bundle b p :
  objc_bundle p = None ->
  slot_events (set_objc_bundle (Some b) p) ≡ₚ
  slot_events p ++ [EvBundleNew (isolate p) gumjs_objc_modules b].
Proof.
  destruct p as [? [] ? ? ? ? ? ? ?]; [discriminate | intros _].
  unfold slot_events; cbn. apply Permutation_cons_append.
Qed.

Lemma slot_events_set_java_bundle b p :
  java_bundle p = None ->
  slot_events (set_java_bundle (Some b) p) ≡ₚ
  slot_events p ++ [EvBundleNew (isolate p) gumjs_java_modules b].
Proof.
  destruct p as [? o [] ? ? ? ? ? ?]; [discriminate | intros _].
  unfold slot_events; cbn. rewrite <- Permutation_middle. apply Permutation_cons_append.
Qed.

(** A getter that finds its slot null: the new bundle is accounted for. *)
Lemma constructed_lazy_new s0 s (m : ModuleTable)
    (set : ptr GumV8Bundle -> GumV8Platform -> GumV8Platform) :
  let b := BundleAt (next_addr (host s)) in
  bundles_of (set (Some b) (this s)) ≡ₚ b :: bundles_of (this s) ->
  slot_events (set (Some b) (this s)) ≡ₚ
    slot_events (this s) ++ [EvBundleNew (isolate (this s)) m b] ->
  runtime_bundle (set (Some b) (this s)) = runtime_bundle (this s) ->
  debug_bundle (set (Some b) (this s)) = debug_bundle (this s) ->
  constructed s0 s ->
  constructed s0
    (mkState (set (Some b) (this s))
       (set_trace (trace (host s) ++ [EvBundleNew (isolate (this s)) m b])
          (set_next_addr (S (next_addr (host s))) (host s)))).
Proof.
  intros b Hb He Hrt Hdbg C.
  pose proof (fresh_not_in_bundles _ _ C) as Hfresh.
  destruct C as [Hr Hd (evs & Et & Ep) Hn Hf].
  split; cbn [this host next_addr trace set_trace set_next_addr].
  - rewrite Hrt. exact Hr.
  - rewrite Hdbg. exact Hd.
  - eexists. split; [rewrite Et, <- app_assoc; reflexivity|].
    rewrite bundle_events_app, He, Ep. reflexivity.
  - rewrite Hb. apply NoDup_cons. split; assumption.
  - intros b' Hb'. rewrite Hb in Hb'.
    apply elem_of_cons in Hb' as [->|Hb']; [cbn; lia|]. specialize (Hf b' Hb'). lia.
Qed.

Lemma constructed_GetObjCBundle s0 s :
  constructed s0 s -> constructed s0 (final (GetObjCBundle s)).
Proof.
  intros C. rewrite GetObjCBundle_run.
  destruct (objc_bundle (this s)) eqn:E; [exact C|].
  cbn [final]. apply constructed_lazy_new; try exact C.
  - apply bundles_of_set_objc_bundle, E.
  - apply slot_events_set_objc_bundle, E.
  - reflexivity.
  - reflexivity.
Qed.

Lemma constructed_GetJavaBundle s0 s :
  constructed s0 s -> constructed s0 (final (GetJavaBundle s)).
Proof.
  intros C. rewrite GetJavaBundle_run.
  destruct (java_bundle (this s)) eqn:E; [exact C|].
  cbn [final]. apply constructed_lazy_new; try exact C.
  - apply bundles_of_set_java_bundle, E.
  - apply slot_events_set_java_bundle, E.
  - reflexivity.
  - reflexivity.
Qed.

Section Reachable.
Context `{DoubleRounding}.

Lemma final_bind_unit (m : M unit) (k : M unit) (s : State) :
  final (bind m (fun _ => k) s) =
  match m s with Ok _ s' => final (k s') | Abort s' => s' end.
Proof. unfold bind. destruct (m s); reflexivity. Qed.

Lemma constructed_perform s0 s a :
  constructed s0 s -> constructed s0 (final (perform a s)).
Proof.
  intros C. destruct (is_getter a) eqn:G.
  - destruct a; try discriminate; cbn.
    + pose proof (constructed_GetObjCBundle _ _ C) as C'.
      unfold bind. rewrite GetObjCBundle_run in *.
      destruct (objc_bundle (this s)); exact C'.
    + pose proof (constructed_GetJavaBundle _ _ C) as C'.
      unfold bind. rewrite GetJavaBundle_run in *.
      destruct (java_bundle (this s)); exact C'.
  - eapply constructed_framed; [exact C | apply framed_perform; exact G].
Qed.

(** Every state a constructed platform can get into satisfies the
    invariant, also when the run ended in an abort. *)
Lemma constructed_perform_all s0 acts s :
  constructed s0 s -> constructed s0 (final (perform_all acts s)).
Proof.
  revert s. induction acts as [|a acts IH]; intros s C; [exact C|].
  cbn [perform_all]. rewrite final_bind_unit.
  pose proof (constructed_perform _ _ a C) as C'.
  destruct (perform a s) as [[] s'|s']; cbn in C'; [apply IH; exact C' | exact C'].
Qed.

(** A lazy slot stays null as long as its getter is not called. *)
Lemma objc_bundle_stays_null acts s :
  DoGetObjCBundle ∉ acts -> objc_bundle (this s) = NULL ->
  objc_bundle (this (final (perform_all acts s))) = NULL.
Proof.
  revert s. induction acts as [|a acts IH]; intros s Hnot Hnull; [exact Hnull|].
  apply not_elem_of_cons in Hnot as [Hne Hnot].
  cbn [perform_all]. rewrite final_bind_unit.
  assert (Hstep : objc_bundle (this (final (perform a s))) = NULL).
  { destruct (is_getter a) eqn:G.
    - destruct a; try discriminate; [congruence|]. cbn. unfold bind.
      rewrite GetJavaBundle_run. destruct (java_bundle (this s)); cbn; exact Hnull.
    - destruct (framed_perform a G s) as (-> & _). exact Hnull. }
  destruct (perform a s) as [[] s'|s']; cbn in Hstep; [apply IH; assumption | exact Hstep].
Qed.

Lemma java_bundle_stays_null acts s :
  DoGetJavaBundle ∉ acts -> java_bundle (this s) = NULL ->
  java_bundle (this (final (perform_all acts s))) = NULL.
Proof.
  revert s. induction acts as [|a acts IH]; intros s Hnot Hnull; [exact Hnull|].
  apply not_elem_of_cons in Hnot as [Hne Hnot].
  cbn [perform_all]. rewrite final_bind_unit.
  assert (Hstep : java_bundle (this (final (perform a s))) = NULL).
  { destruct (is_getter a) eqn:G.
    - destruct a; try discriminate; [|congruence]. cbn. unfold bind.
      rewrite GetObjCBundle_run. destruct (objc_bundle (this s)); cbn; exact Hnull.
    - destruct (framed_perform a G s) as (-> & _). exact Hnull. }
  destruct (perform a s) as [[] s'|s']; cbn in Hstep; [apply IH; assumption | exact Hstep].
Qed.

(** A lazy slot that is set keeps its bundle. *)
Lemma objc_bundle_stays_set acts s b :
  objc_bundle (this s) = Some b ->
  objc_bundle (this (final (perform_all acts s))) = Some b.
Proof.
  revert s. induction acts as [|a acts IH]; intros s Hset; [exact Hset|].
  cbn [perform_all]. rewrite final_bind_unit.
  assert (Hstep : objc_bundle (this (final (perform a s))) = Some b).
  { destruct (is_getter a) eqn:G.
    - destruct a; try discriminate; cbn [perform]; unfold bind.
      + rewrite GetObjCBundle_run, Hset. exact Hset.
      + rewrite GetJavaBundle_run. destruct (java_bundle (this s)); cbn; exact Hset.
    - destruct (framed_perform a G s) as (-> & _). exact Hset. }
  destruct (perform a s) as [[] s'|s']; cbn [final] in Hstep;
    [apply IH; assumption | exact Hstep].
Qed.

Lemma java_bundle_stays_set acts s b :
  java_bundle (this s) = Some b ->
  java_bundle (this (final (perform_all acts s))) = Some b.
Proof.
  revert s. induction acts as [|a acts IH]; intros s Hset; [exact Hset|].
  cbn [perform_all]. rewrite final_bind_unit.
  assert (Hstep : java_bundle (this (final (perform a s))) = Some b).
  { destruct (is_getter a) eqn:G.
    - destruct a; try discriminate; cbn [perform]; unfold bind.
      + rewrite GetObjCBundle_run. destruct (objc_bundle (this s)); cbn; exact Hset.
      + rewrite GetJavaBundle_run, Hset. exact Hset.
    - destruct (framed_perform a G s) as (-> & _). exact Hset. }
  destruct (perform a s) as [[] s'|s']; cbn [final] in Hstep;
    [apply IH; assumption | exact Hstep].
Qed.

End Reachable.

(** C6.  The constructor leaves the [objc] and [java] slots null.  In any
    state, [GetObjCBundle] (and likewise [GetJavaBundle]) compiles its module
    table only if the slot is null, stores the bundle in the slot and returns
    it; a call that finds the slot set returns that bundle and does nothing
    else; and whatever happens after a call ([later]), a further call
    returns the bundle of the first and changes nothing.  And after any
    sequence of operations on a constructed platform in which the getter does
    not occur ([acts]), the slot is still null and the module table has not
    been compiled. *)
Theorem lazy_bundles_memoised `{DoubleRounding}
    (s0 : State) (acts : list Action) (s : State) (later : list Action) :
  let s1 := final (GumV8Platform_new s0) in
  let s2 := final (perform_all acts s1) in
  (objc_bundle (this s1) = NULL /\ java_bundle (this s1) = NULL) /\
  memoised GetObjCBundle objc_bundle gumjs_objc_modules s later /\
  memoised GetJavaBundle java_bundle gumjs_java_modules s later /\
  (DoGetObjCBundle ∉ acts ->
     objc_bundle (this s2) = NULL /\
     gumjs_objc_modules ∉ compiled_modules (events_since s0 s2)) /\
  (DoGetJavaBundle ∉ acts ->
     java_bundle (this s2) = NULL /\
     gumjs_java_modules ∉ compiled_modules (events_since s0 s2)).
Proof.
  intros s1 s2.
  pose proof (GumV8Platform_new_run s0) as Hnew. cbn zeta in Hnew.
  destruct Hnew as (_ & _ & Hthis & _). fold s1 in Hthis.
  assert (Hnull : objc_bundle (this s1) = NULL /\ java_bundle (this s1) = NULL)
    by (rewrite Hthis; split; reflexivity).
  assert (C : constructed s0 s2)
    by (apply constructed_perform_all, constructed_new).
  pose proof (fun Hnot => objc_bundle_stays_null acts s1 Hnot (proj1 Hnull)) as Hobjc.
  pose proof (fun Hnot => java_bundle_stays_null acts s1 Hnot (proj2 Hnull)) as Hjava.
  fold s2 in Hobjc, Hjava. clearbody s2. clear Hthis. clearbody s1.
  destruct C as [_ _ (evs & Et & Ep) _ _].
  assert (Hcomp : compiled_modules (events_since s0 s2) ≡ₚ
                  compiled_modules (slot_events (this s2))).
  { rewrite (events_since_app _ _ _ Et), <- compiled_modules_bundle_events.
    unfold compiled_modules. rewrite Ep. reflexivity. }
  split; [exact Hnull|]. split; [|split; [|split]].
  - unfold memoised. rewrite (GetObjCBundle_run s).
    destruct (objc_bundle (this s)) as [b|] eqn:E; cbn [final].
    + exists b. repeat split; try (reflexivity || assumption).
      rewrite GetObjCBundle_run, (objc_bundle_stays_set later s b E). reflexivity.
    + eexists. split; [reflexivity|]. split; [reflexivity|].
      split; [apply events_since_app; reflexivity|].
      rewrite GetObjCBundle_run. erewrite objc_bundle_stays_set by reflexivity.
      reflexivity.
  - unfold memoised. rewrite (GetJavaBundle_run s).
    destruct (java_bundle (this s)) as [b|] eqn:E; cbn [final].
    + exists b. repeat split; try (reflexivity || assumption).
      rewrite GetJavaBundle_run, (java_bundle_stays_set later s b E). reflexivity.
    + eexists. split; [reflexivity|]. split; [reflexivity|].
      split; [apply events_since_app; reflexivity|].
      rewrite GetJavaBundle_run. erewrite java_bundle_stays_set by reflexivity.
      reflexivity.
  - intros Hnot. specialize (Hobjc Hnot). split; [exact Hobjc|].
    rewrite Hcomp. unfold slot_events, slot_event. rewrite Hobjc.
    destruct (java_bundle (this s2)), (debug_bundle (this s2)), (runtime_bundle (this s2));
      cbn; rewrite ?elem_of_cons, ?elem_of_nil; intuition discriminate.
  - intros Hnot. specialize (Hjava Hnot). split; [exact Hjava|].
    rewrite Hcomp. unfold slot_events, slot_event. rewrite Hjava.
    destruct (objc_bundle (this s2)), (debug_bundle (this s2)), (runtime_bundle (this s2));
      cbn; rewrite ?elem_of_cons, ?elem_of_nil; intuition discriminate.
Qed.

(** ** Teardown *)

Lemma posts_run_in_place (l : list Task) (s : State) :
  disposing (this s) = true ->
  foldr (fun t rest => CallOnBackgroundThread t kShortRunningTask;;; rest) (ret tt) l s =
  Ok tt (mkState (this s) (set_trace (trace (host s) ++ run_in_place l) (host s))).
Proof.
  revert s. induction l as [|t l IH]; intros s Hd; cbn [foldr].
  - unfold ret, set_trace, run_in_place. cbn. rewrite app_nil_r.
    destruct s as [p []]; reflexivity.
  - open_state s. run in Hd. subst. unfold CallOnBackgroundThread at 1. run.
    rewrite IH by reflexivity. run. flatten_trace. reflexivity.
Qed.

Lemma GumV8Platform_delete_run (s : State) :
  GumV8Platform_delete s =
  Ok tt (mkState (set_disposing true (this s))
           (set_v8_dispose_posts []
              (set_trace (trace (host s) ++
                          teardown_events (this s) (v8_dispose_posts (host s)))
                 (host s)))).
Proof.
  unfold GumV8Platform_delete, V8_Dispose, teardown_events, in_isolate, slot_free.
  open_state s.
  destruct objc, java; run;
    rewrite posts_run_in_place by reflexivity; run; flatten_trace; reflexivity.
Qed.

Lemma bundle_events_run_in_place (l : list Task) : bundle_events (run_in_place l) = [].
Proof. induction l as [|t l IH]; [reflexivity | exact IH]. Qed.

Lemma freed_teardown_events (p : GumV8Platform) (l : list Task) :
  is_Some (runtime_bundle p) -> is_Some (debug_bundle p) ->
  freed_bundles (teardown_events p l) = Some <$> bundles_of p.
Proof.
  intros [r Hr] [d Hd].
  rewrite <- freed_bundles_bundle_events. unfold teardown_events, in_isolate.
  rewrite !bundle_events_app, bundle_events_run_in_place.
  destruct p as [? [] [] ? ? ? ? ? ?]; cbn in *; subst; reflexivity.
Qed.

Lemma created_teardown_events (p : GumV8Platform) (l : list Task) :
  created_bundles (teardown_events p l) = [].
Proof.
  rewrite <- created_bundles_bundle_events. unfold teardown_events, in_isolate.
  rewrite !bundle_events_app, bundle_events_run_in_place.
  destruct p as [? [] [] ? ? ? ? ? ?]; reflexivity.
Qed.

(** C5.  The destructor does not abort.  Its first action is the store of
    [true] to [disposing]; then, inside one scope of the isolate's lock, it
    frees the [objc] bundle if that slot is not null, the [java] bundle if
    that slot is not null, and then the [debug] and the [runtime] bundle
    whatever the slots hold; after the scope it disposes the isolate and the
    engine (the tasks the engine still hands over are run in place, since
    [disposing] is set, and the thread pool's queue is not touched), shuts the
    platform down, and releases the scheduler and, last, the allocator (see
    [teardown_events]).  For a platform that was constructed and then used in
    any way, the pointers freed are exactly the bundles in the slots, none of
    them null, none freed twice, and they are the bundles that were created. *)
Theorem GumV8Platform_delete_teardown `{DoubleRounding} (s : State) :
  let o := GumV8Platform_delete s in
  let p := this s in
  aborted o = false /\
  this (final o) = set_disposing true p /\
  events_since s (final o) = teardown_events p (v8_dispose_posts (host s)) /\
  head (events_since s (final o)) = Some (EvStoreDisposing true) /\
  last (events_since s (final o)) = Some (EvAllocatorDelete (array_buffer_allocator p)) /\
  thread_pool (host (final o)) = thread_pool (host s) /\
  js_thread (host (final o)) = js_thread (host s) /\
  (forall (s0 : State) (acts : list Action),
     s = final (perform_all acts (final (GumV8Platform_new s0))) ->
     let evs := events_since s0 (final o) in
     freed_bundles evs = Some <$> bundles_of p /\
     NoDup (freed_bundles evs) /\
     freed_bundles evs ≡ₚ Some <$> created_bundles evs).
Proof.
  intros o p. subst o. rewrite GumV8Platform_delete_run. cbn [final aborted].
  assert (Hev : events_since s
                  (mkState (set_disposing true (this s))
                     (set_v8_dispose_posts []
                        (set_trace (trace (host s) ++
                                    teardown_events (this s) (v8_dispose_posts (host s)))
                           (host s)))) =
                teardown_events p (v8_dispose_posts (host s)))
    by (apply events_since_app; reflexivity).
  rewrite Hev.
  split; [reflexivity|]. split; [reflexivity|]. split; [reflexivity|].
  split; [reflexivity|]. split.
  { unfold teardown_events. rewrite !last_app. reflexivity. }
  split; [reflexivity|]. split; [reflexivity|].
  intros s0 acts Hs. set (evs := events_since s0 _).
  assert (C : constructed s0 s)
    by (rewrite Hs; apply constructed_perform_all, constructed_new).
  clear Hs. destruct C as [Hr Hd (evs0 & Et & Ep) Hn Hf].
  assert (Hevs : evs = evs0 ++ teardown_events p (v8_dispose_posts (host s))).
  { subst evs. apply events_since_app. cbn. rewrite Et, <- app_assoc. reflexivity. }
  assert (Hfreed0 : freed_bundles evs0 = []).
  { apply Permutation_nil_r. rewrite <- freed_bundles_bundle_events.
    unfold freed_bundles. rewrite Ep. fold (freed_bundles (slot_events (this s))).
    unfold slot_events, slot_event.
    destruct (objc_bundle (this s)), (java_bundle (this s)), (debug_bundle (this s)),
      (runtime_bundle (this s)); reflexivity. }
  assert (Hcreated : created_bundles evs ≡ₚ bundles_of p).
  { rewrite Hevs. unfold created_bundles. rewrite omap_app.
    fold (created_bundles evs0).
    fold (created_bundles (teardown_events p (v8_dispose_posts (host s)))).
    rewrite created_teardown_events, app_nil_r, <- created_bundles_bundle_events.
    unfold created_bundles. rewrite Ep. apply reflexive_eq, created_slot_events. }
  assert (Hfreed : freed_bundles evs = Some <$> bundles_of p).
  { rewrite Hevs. unfold freed_bundles. rewrite omap_app.
    fold (freed_bundles evs0).
    fold (freed_bundles (teardown_events p (v8_dispose_posts (host s)))).
    rewrite Hfreed0, freed_teardown_events by assumption. reflexivity. }
  rewrite Hfreed. split; [reflexivity|]. split.
  - apply NoDup_fmap_2; [intros ? ? [=]; assumption | exact Hn].
  - rewrite Hcreated. reflexivity.
Qed.

(** ** The monotonic clock *)

Lemma wrap64_in_range (z : Z) : in_gint64 z -> wrap64 z = z.
Proof. unfold in_gint64, wrap64. intros Hz. rewrite Z.mod_small; lia. Qed.

Lemma quot_1000_in_range (z : Z) : in_gint64 z -> in_gint64 (z ÷ 1000).
Proof.
  unfold in_gint64. intros [Hlo Hhi].
  pose proof (Z.quot_le_mono (- 2 ^ 63) z 1000 ltac:(lia) Hlo) as H1.
  pose proof (Z.quot_le_mono z (2 ^ 63 - 1) 1000 ltac:(lia) ltac:(lia)) as H2.
  change (- 2 ^ 63 ÷ 1000)%Z with (-9223372036854775)%Z in H1.
  change ((2 ^ 63 - 1) ÷ 1000)%Z with 9223372036854775%Z in H2.
  lia.
Qed.

(** Without overflow the elapsed milliseconds are the truncated quotient. *)
Lemma elapsed_milliseconds (now start : Z) :
  in_gint64 (now - start) ->
  gint64_div (gint64_sub now start) 1000 = ((now - start) ÷ 1000)%Z.
Proof.
  intros Hd. unfold gint64_div, gint64_sub.
  rewrite (wrap64_in_range _ Hd). apply wrap64_in_range, quot_1000_in_range, Hd.
Qed.

Section Rounding.
Context `{DoubleRoundingLaws}.

Lemma rnd_proper (x y : Q) : (x == y)%Q -> (rnd x == rnd y)%Q.
Proof.
  intros E. apply Qle_antisym; apply rnd_monotone; rewrite E; apply Qle_refl.
Qed.

Lemma rnd_nonneg (x : Q) : (0 <= x)%Q -> (0 <= rnd x)%Q.
Proof. intros Hx. rewrite <- rnd_zero. apply rnd_monotone, Hx. Qed.

Lemma double_div_monotone (a b c : double) :
  (0 <= c)%Q -> (a <= b)%Q -> (double_div a c <= double_div b c)%Q.
Proof.
  intros Hc Hab. unfold double_div. apply rnd_monotone.
  unfold Qdiv. apply Qmult_le_compat_r; [exact Hab|].
  apply Qinv_le_0_compat, Hc.
Qed.

Lemma double_of_gint64_monotone (a b : Z) :
  (a <= b)%Z -> (double_of_gint64 a <= double_of_gint64 b)%Q.
Proof. intros Hab. apply rnd_monotone. rewrite <- Zle_Qle. exact Hab. Qed.

Lemma double_div_zero (c : double) : (double_div (double_of_gint64 0) c == 0)%Q.
Proof.
  unfold double_div, double_of_gint64.
  apply (Qeq_trans _ (rnd 0)); [|apply rnd_zero]. apply rnd_proper.
  change (inject_Z 0) with 0%Q. rewrite rnd_zero. unfold Qdiv. apply Qmult_0_l.
Qed.

(** The summand [1.0 / 60.0] of the idle deadline is not negative. *)
Lemma one_sixtieth_nonneg : (0 <= double_div (double_lit 1) (double_lit 60))%Q.
Proof.
  unfold double_div, double_lit. apply rnd_nonneg.
  unfold Qdiv. apply Qmult_le_0_compat.
  - apply rnd_nonneg. discriminate.
  - apply Qinv_le_0_compat, rnd_nonneg. discriminate.
Qed.

(** Adding a non-negative double to a double does not make it smaller. *)
Lemma double_add_nonneg (a b : Q) :
  (0 <= b)%Q -> (rnd a <= double_add (rnd a) b)%Q.
Proof.
  intros Hb. unfold double_add.
  rewrite <- (rnd_idempotent a) at 1. apply rnd_monotone.
  rewrite <- (Qplus_0_r (rnd a)) at 1. apply Qplus_le_r, Hb.
Qed.

Lemma reading_unfold (s : State) :
  reading s =
  double_div
    (double_of_gint64
       (gint64_div (gint64_sub (clock (host s)) (start_time (this s))) 1000))
    (double_lit 1000).
Proof. open_state s. reflexivity. Qed.

Lemma reading_monotone (s1 s2 : State) :
  start_time (this s1) = start_time (this s2) ->
  in_gint64 (clock (host s1) - start_time (this s1)) ->
  in_gint64 (clock (host s2) - start_time (this s2)) ->
  (clock (host s1) <= clock (host s2))%Z ->
  (reading s1 <= reading s2)%Q.
Proof.
  intros Est H1 H2 Hc. rewrite !reading_unfold.
  rewrite !elapsed_milliseconds by assumption. rewrite <- Est.
  apply double_div_monotone.
  - apply rnd_nonneg. discriminate.
  - apply double_of_gint64_monotone, Z.quot_le_mono; lia.
Qed.

End Rounding.

(** The two roundings given with the model obey the laws. *)
Lemma exact_rounding_laws : @DoubleRoundingLaws exact_rounding.
Proof.
  split; cbn.
  - intros x y Hxy. exact Hxy.
  - intros x. apply Qeq_refl.
  - apply Qeq_refl.
Qed.

Lemma fixed_rounding_laws : @DoubleRoundingLaws fixed_rounding.
Proof.
  assert (Hpos : (0 < inject_Z (2 ^ 52))%Q) by reflexivity.
  assert (Hne : ~ (inject_Z (2 ^ 52) == 0)%Q) by discriminate.
  split; cbn [rnd fixed_rounding].
  - intros x y Hxy. unfold Qdiv. apply Qmult_le_compat_r.
    + rewrite <- Zle_Qle. apply Qfloor_resp_le.
      apply Qmult_le_compat_r; [exact Hxy | apply Qlt_le_weak, Hpos].
    + apply Qinv_le_0_compat, Qlt_le_weak, Hpos.
  - intros x.
    assert (E : (inject_Z (Qfloor (x * inject_Z (2 ^ 52))) / inject_Z (2 ^ 52) *
                 inject_Z (2 ^ 52) ==
                 inject_Z (Qfloor (x * inject_Z (2 ^ 52))))%Q) by (field; exact Hne).
    rewrite (Qfloor_comp _ _ E), Qfloor_Z. apply Qeq_refl.
  - rewrite Qmult_0_l. reflexivity.
Qed.

(** C4.  [MonotonicallyIncreasingTime] returns, as a double, the
    microseconds elapsed since [start_time], divided by 1000 as integers
    (which truncates to whole milliseconds), converted to double and divided
    by 1000.0; it changes nothing.  For two states of the same platform, the
    clock of the first not after that of the second, and the elapsed
    microseconds within 64 bits in both, the first reading is not greater
    than the second.  Right after the constructor has returned the reading
    is 0. *)
Theorem MonotonicallyIncreasingTime_monotone `{DoubleRoundingLaws} (s1 s2 s0 : State) :
  start_time (this s1) = start_time (this s2) ->
  in_gint64 (clock (host s1) - start_time (this s1)) ->
  in_gint64 (clock (host s2) - start_time (this s2)) ->
  (clock (host s1) <= clock (host s2))%Z ->
  let elapsed (s : State) : double :=
    double_div
      (double_of_gint64 ((clock (host s) - start_time (this s)) ÷ 1000))
      (double_lit 1000) in
  MonotonicallyIncreasingTime s1 = Ok (elapsed s1) s1 /\
  MonotonicallyIncreasingTime s2 = Ok (elapsed s2) s2 /\
  (elapsed s1 <= elapsed s2)%Q /\
  (let s := final (GumV8Platform_new s0) in
   exists t : double, MonotonicallyIncreasingTime s = Ok t s /\ (t == 0)%Q).
Proof.
  intros Est Hd1 Hd2 Hc elapsed.
  assert (E1 : reading s1 = elapsed s1).
  { rewrite reading_unfold, elapsed_milliseconds by assumption. reflexivity. }
  assert (E2 : reading s2 = elapsed s2).
  { rewrite reading_unfold, elapsed_milliseconds by assumption. reflexivity. }
  rewrite <- E1, <- E2.
  split; [apply MonotonicallyIncreasingTime_pure|].
  split; [apply MonotonicallyIncreasingTime_pure|].
  split; [apply reading_monotone; assumption|].
  pose proof (GumV8Platform_new_run s0) as Hnew. cbn zeta in Hnew.
  destruct Hnew as (_ & _ & Hthis & _ & Hclock & _).
  set (s := final (GumV8Platform_new s0)) in *. clearbody s.
  exists (reading s). split; [apply MonotonicallyIncreasingTime_pure|].
  rewrite reading_unfold, Hthis, Hclock. cbn [start_time].
  unfold gint64_sub. rewrite Z.sub_diag.
  change (gint64_div (wrap64 0) 1000) with 0%Z. apply double_div_zero.
Qed.

Lemma MonotonicallyIncreasingTime_monotone_witness :
  (@reading exact_rounding (example_state 1005500) <=
   @reading exact_rounding (example_state 1020000))%Q.
Proof.
  exact (proj1 (proj2 (proj2
    (@MonotonicallyIncreasingTime_monotone exact_rounding exact_rounding_laws
       (example_state 1005500) (example_state 1020000) (example_state 0)
       eq_refl ltac:(unfold in_gint64; cbn; lia) ltac:(unfold in_gint64; cbn; lia)
       ltac:(cbn; lia))))).
Defined.

Example reading_after_5500_microseconds :
  @reading exact_rounding (example_state 1005500) = (5 # 1000)%Q.
Proof. reflexivity. Qed.

Example reading_after_20_milliseconds_fixed :
  @reading fixed_rounding (example_state 1020000) = (90071992547409 # 4503599627370496)%Q.
Proof. vm_compute. reflexivity. Qed.

(** ** Idle tasks *)

Section IdleDeadline.
Context `{DoubleRoundingLaws}.

Lemma time_frame_perform (a : Action) (s : State) : time_frame s (final (perform a s)).
Proof.
  destruct (is_getter a) eqn:G.
  - destruct a; try discriminate; cbn [perform]; unfold bind.
    + rewrite GetObjCBundle_run.
      destruct (objc_bundle (this s)); split; cbn; (reflexivity || lia).
    + rewrite GetJavaBundle_run.
      destruct (java_bundle (this s)); split; cbn; (reflexivity || lia).
  - destruct (framed_perform a G s) as (Ethis & _ & _ & Hclock).
    split; [rewrite Ethis; reflexivity | exact Hclock].
Qed.

Lemma time_frame_perform_all (acts : list Action) (s : State) :
  time_frame s (final (perform_all acts s)).
Proof.
  revert s. induction acts as [|a acts IH]; intros s.
  - split; cbn; (reflexivity || lia).
  - cbn [perform_all]. rewrite final_bind_unit.
    pose proof (time_frame_perform a s) as [E1 C1].
    destruct (perform a s) as [[] s'|s']; cbn [final] in *.
    + destruct (IH s') as [E2 C2]. split; [congruence | lia].
    + split; assumption.
Qed.

(** C3.  An idle task is submitted in state [s]; the request that is queued
    holds the task, the isolate and the platform, and no time.  After
    anything that happens then ([acts]) the handler is run on the request, in
    state [s'].  The deadline it passes to the task is the reading of
    [MonotonicallyIncreasingTime] in [s'], the state of the execution, plus
    [1.0 / 60.0]; it is not less than that reading, nor less than the reading
    at submission (the elapsed microseconds being within 64 bits at both
    times). *)
Theorem idle_deadline_at_execution
    (for_isolate : ptr Isolate) (task : IdleTask) (acts : list Action) (s : State) :
  let o := CallIdleOnForegroundThread for_isolate task s in
  let request :=
    GumV8TaskRequest.mk (next_addr (host s)) ThisPlatform for_isolate task in
  let s' := final (perform_all acts (final o)) in
  let deadline :=
    double_add (reading s') (double_div (double_lit 1) (double_lit 60)) in
  disposing (this s) = false ->
  in_gint64 (clock (host s) - start_time (this s)) ->
  in_gint64 (clock (host s') - start_time (this s')) ->
  js_thread (host (final o)) =
    js_thread (host s) ++ [(G_PRIORITY_DEFAULT, Job_HandleIdleTaskRequest request)] /\
  MonotonicallyIncreasingTime s' = Ok (reading s') s' /\
  events_since s' (final (run_job (Job_HandleIdleTaskRequest request) s')) =
    in_isolate for_isolate
      [EvIdleTaskRun task deadline; EvIdleTaskDelete task;
       EvRequestFree (next_addr (host s))] /\
  (reading s' <= deadline)%Q /\
  (reading s <= deadline)%Q.
Proof.
  intros o request s' deadline Hd Hsub Hexec.
  assert (Hq : js_thread (host (final o)) =
               js_thread (host s) ++
               [(G_PRIORITY_DEFAULT, Job_HandleIdleTaskRequest request)]).
  { subst o request. unfold CallIdleOnForegroundThread. clear s' deadline Hexec Hsub.
    open_state s. run in Hd. subst. run. reflexivity. }
  pose proof (framed_CallIdleOnForegroundThread for_isolate task s)
    as (Ethis & _ & _ & Hc1).
  fold o in Ethis, Hc1.
  pose proof (time_frame_perform_all acts (final o)) as [Est Hc2]. fold s' in Est, Hc2.
  rewrite Ethis in Est.
  clearbody s'. clearbody o.
  assert (Hle : (reading s' <= deadline)%Q).
  { subst deadline. rewrite (reading_unfold s'). unfold double_div at 1.
    apply double_add_nonneg, one_sixtieth_nonneg. }
  split; [exact Hq|]. split; [apply MonotonicallyIncreasingTime_pure|].
  split; [|split; [exact Hle|]].
  - cbn [run_job]. rewrite HandleIdleTaskRequest_run. apply events_since_app. reflexivity.
  - apply (Qle_trans _ (reading s')); [|exact Hle].
    apply reading_monotone; (congruence || assumption || lia).
Qed.

End IdleDeadline.

Lemma idle_deadline_at_execution_witness :
  let s := example_state 1005500 in
  let request := GumV8TaskRequest.mk 6 ThisPlatform (Some (IsolateAt 2)) (IdleTaskAt 9) in
  let s' :=
    final (@perform_all exact_rounding [DoClockAdvance 14500]
             (final (CallIdleOnForegroundThread (Some (IsolateAt 2)) (IdleTaskAt 9) s))) in
  events_since s' (final (@run_job exact_rounding (Job_HandleIdleTaskRequest request) s')) =
    in_isolate (Some (IsolateAt 2))
      [EvIdleTaskRun (IdleTaskAt 9)
         (@double_add exact_rounding (@reading exact_rounding s')
            (@double_div exact_rounding (@double_lit exact_rounding 1) (@double_lit exact_rounding 60)));
       EvIdleTaskDelete (IdleTaskAt 9); EvRequestFree 6] /\
  (@reading exact_rounding s <=
   @double_add exact_rounding (@reading exact_rounding s')
     (@double_div exact_rounding (@double_lit exact_rounding 1) (@double_lit exact_rounding 60)))%Q.
Proof.
  pose proof (@idle_deadline_at_execution exact_rounding exact_rounding_laws
                (Some (IsolateAt 2)) (IdleTaskAt 9) [DoClockAdvance 14500]
                (example_state 1005500) eq_refl ltac:(unfold in_gint64; cbn; lia)
                ltac:(vm_compute; split; [discriminate | reflexivity]))
    as (_ & _ & Hev & _ & Hle).
  split; [exact Hev | exact Hle].
Defined.

(** The deadline follows the clock of the execution: the same request meets
    different deadlines when it is run at different times. *)
Example idle_deadline_depends_on_execution_time :
  let request := GumV8TaskRequest.mk 6 ThisPlatform (Some (IsolateAt 2)) (IdleTaskAt 9) in
  events_since (example_state 1005500)
    (final (@HandleIdleTaskRequest exact_rounding request (example_state 1005500))) =
    in_isolate (Some (IsolateAt 2))
      [EvIdleTaskRun (IdleTaskAt 9) (1300 # 60000);
       EvIdleTaskDelete (IdleTaskAt 9); EvRequestFree 6] /\
  events_since (example_state 1020000)
    (final (@HandleIdleTaskRequest exact_rounding request (example_state 1020000))) =
    in_isolate (Some (IsolateAt 2))
      [EvIdleTaskRun (IdleTaskAt 9) (2200 # 60000);
       EvIdleTaskDelete (IdleTaskAt 9); EvRequestFree 6].
Proof. split; reflexivity. Qed.

(** ** Delayed tasks *)

(** The conversion to [guint] yields the whole milliseconds of a delay that
    is in range. *)
Lemma double_to_guint_floor (d : double) :
  (0 <= d)%Q -> (d < inject_Z (2 ^ 32))%Q -> double_to_guint d = Qfloor d.
Proof.
  intros H0 Hlt. unfold double_to_guint, wrap_guint, Qtruncate.
  assert (Hn : (0 <= Qnum d)%Z).
  { destruct d as [n m]. unfold Qle in H0. cbn in *. lia. }
  assert (Hf : Qfloor d = (Qnum d / Z.pos (Qden d))%Z) by (destruct d; reflexivity).
  rewrite Z.quot_div_nonneg by lia. rewrite <- Hf.
  apply Z.mod_small. split.
  - rewrite Hf. apply Z.div_pos; lia.
  - rewrite Zlt_Qlt. eapply Qle_lt_trans; [apply Qfloor_le | exact Hlt].
Qed.

Section DelayedDispatch.
Context `{DoubleRounding}.

(** A source that is attached, holds the context's reference only and has a
    request for [HandleDelayedTaskRequest] as its callback is dispatched:
    the handler runs, and since it returns [FALSE] the source is destroyed. *)
Lemma g_main_context_dispatch_source_run (source : nat) (g : GSource)
    (request : GumV8TaskRequest.t Task) (s : State) :
  sources (host s) !! source = Some g ->
  is_Some (attached_to g) ->
  callback g = Some (Callback_HandleDelayedTaskRequest request) ->
  ref_count g = 1%nat ->
  g_main_context_dispatch_source source s =
  Ok tt (mkState (this s)
           (set_sources (delete source (sources (host s)))
              (set_trace (trace (host s) ++ events_since s (final (HandleTaskRequest request s)))
                 (host s)))).
Proof.
  intros Hg [ctx Hctx] Hcb Href.
  rewrite (events_since_app s (final (HandleTaskRequest request s))
             (match GumV8TaskRequest.isolate request with
              | Some i => in_isolate (Some i)
                            [EvTaskRun (GumV8TaskRequest.task request);
                             EvTaskDelete (GumV8TaskRequest.task request);
                             EvRequestFree (GumV8TaskRequest.addr request)]
              | None => [EvTaskRun (GumV8TaskRequest.task request);
                         EvTaskDelete (GumV8TaskRequest.task request);
                         EvRequestFree (GumV8TaskRequest.addr request)]
              end))
    by (rewrite HandleTaskRequest_run; reflexivity).
  open_state s. destruct g as [iv pr cb att rc].
  cbn [attached_to callback ref_count] in *. subst. run in Hg.
  unfold g_main_context_dispatch_source. run. rewrite Hg. cbv beta iota.
  unfold run_callback, HandleDelayedTaskRequest, HandleTaskRequest, g_source_destroy.
  destruct request as [ra [] [ri|] rtask]; run;
    (erewrite g_source_unref_run by (run; rewrite lookup_alter_eq, Hg; reflexivity));
    run; cbn [ref_count set_attached_to]; rewrite decide_True by lia;
    rewrite delete_alter_eq; unfold in_isolate; flatten_trace; reflexivity.
Qed.

Lemma g_main_context_dispatch_source_gone (source : nat) (s : State) :
  sources (host s) !! source = None ->
  g_main_context_dispatch_source source s = Ok tt s.
Proof.
  intros Hg. open_state s. run in Hg. unfold g_main_context_dispatch_source. run.
  rewrite Hg. reflexivity.
Qed.

(** C7.  When [disposing] is not set, [CallDelayedOnForegroundThread] does
    not abort, runs nothing and queues no job; it leaves one new timeout
    source, attached to the JS thread's context, of default priority, with
    the request as the data of [HandleDelayedTaskRequest], and with an
    interval that is the delay times 1000.0 converted to [guint], which is
    the whole number of milliseconds when that product is in range.  When the
    source is dispatched, the handler runs the task exactly once and returns
    [FALSE]; the source is then gone, and dispatching it again does
    nothing. *)
Theorem delayed_dispatch_fires_once
    (for_isolate : ptr Isolate) (task : Task) (delay_in_seconds : double) (s : State) :
  let a := next_addr (host s) in
  let request := GumV8TaskRequest.mk a ThisPlatform for_isolate task in
  let source := S a in
  let milliseconds := double_mul delay_in_seconds (double_lit 1000) in
  let o1 := CallDelayedOnForegroundThread for_isolate task delay_in_seconds s in
  let s1 := final o1 in
  let o2 := g_main_context_dispatch_source source s1 in
  let s2 := final o2 in
  disposing (this s) = false ->
  (aborted o1 = false /\
   events_since s s1 = [EvRequestNew a] /\
   thread_pool (host s1) = thread_pool (host s) /\
   js_thread (host s1) = js_thread (host s) /\
   sources (host s1) =
     <[source := {| interval := double_to_guint milliseconds;
                    priority := G_PRIORITY_DEFAULT;
                    callback := Some (Callback_HandleDelayedTaskRequest request);
                    attached_to :=
                      Some (gum_script_scheduler_get_js_context (scheduler (this s)));
                    ref_count := 1 |}]> (sources (host s)) /\
   ((0 <= milliseconds)%Q -> (milliseconds < inject_Z (2 ^ 32))%Q ->
    double_to_guint milliseconds = Qfloor milliseconds)) /\
  (exists s1', HandleDelayedTaskRequest request s1 = Ok false s1') /\
  (aborted o2 = false /\
   count (is_run_of task) (events_since s1 s2) = 1%nat /\
   events_since s1 s2 =
     (let body := [EvTaskRun task; EvTaskDelete task; EvRequestFree a] in
      match for_isolate with
      | Some i => in_isolate (Some i) body
      | None => body
      end) /\
   sources (host s2) !! source = None /\
   g_main_context_dispatch_source source s2 = Ok tt s2).
Proof.
  intros a request source milliseconds o1 s1 o2 s2 Hd.
  pose proof (CallDelayedOnForegroundThread_run for_isolate task delay_in_seconds s Hd)
    as Hrun. cbn zeta in Hrun. fold a request in Hrun.
  assert (Es1 : s1 =
    mkState (this s)
      (set_sources
         (<[source := delayed_source (this s) request delay_in_seconds]> (sources (host s)))
         (set_trace (trace (host s) ++ [EvRequestNew a])
            (set_next_addr (S (S a)) (host s)))))
    by (subst s1 o1; rewrite Hrun; reflexivity).
  assert (Ho1 : aborted o1 = false) by (subst o1; rewrite Hrun; reflexivity).
  assert (Hdispatch :
    o2 = Ok tt (mkState (this s1)
                  (set_sources (delete source (sources (host s1)))
                     (set_trace
                        (trace (host s1) ++
                         events_since s1 (final (HandleTaskRequest request s1)))
                        (host s1))))).
  { subst o2.
    apply (g_main_context_dispatch_source_run source
             (delayed_source (this s) request delay_in_seconds)).
    - rewrite Es1. apply lookup_insert_eq.
    - eexists; reflexivity.
    - reflexivity.
    - reflexivity. }
  assert (Hevs : events_since s1 s2 =
                 events_since s1 (final (HandleTaskRequest request s1))).
  { subst s2. rewrite Hdispatch. apply events_since_app. reflexivity. }
  assert (Hbody : events_since s1 (final (HandleTaskRequest request s1)) =
                  (let body := [EvTaskRun task; EvTaskDelete task; EvRequestFree a] in
                   match for_isolate with
                   | Some i => in_isolate (Some i) body
                   | None => body
                   end)).
  { rewrite HandleTaskRequest_run. apply events_since_app. reflexivity. }
  assert (Hcount : count (is_run_of task)
                     (events_since s1 (final (HandleTaskRequest request s1))) = 1%nat).
  { rewrite Hbody. cbn zeta.
    pose proof (count_body_run task a for_isolate) as Hc. cbn zeta in Hc.
    destruct for_isolate; tauto. }
  assert (Hdelayed : HandleDelayedTaskRequest request s1 =
                     Ok false (final (HandleTaskRequest request s1))).
  { unfold HandleDelayedTaskRequest, bind. rewrite HandleTaskRequest_run. reflexivity. }
  assert (Hgone : sources (host s2) !! source = None).
  { subst s2. rewrite Hdispatch. cbn [final host sources set_sources].
    apply lookup_delete_eq. }
  clearbody s2 o2 s1 o1.
  split; [|split; [|split; [|split; [|split; [|split]]]]].
  - split; [exact Ho1|]. rewrite Es1.
    split; [apply events_since_app; reflexivity|].
    split; [reflexivity|]. split; [reflexivity|]. split; [reflexivity|].
    apply double_to_guint_floor.
  - eexists. exact Hdelayed.
  - rewrite Hdispatch. reflexivity.
  - rewrite Hevs. exact Hcount.
  - rewrite Hevs. exact Hbody.
  - exact Hgone.
  - apply g_main_context_dispatch_source_gone, Hgone.
Qed.

End DelayedDispatch.

Lemma delayed_dispatch_fires_once_witness :
  let s := example_state 1005500 in
  let s1 :=
    final (@CallDelayedOnForegroundThread exact_rounding (Some (IsolateAt 2)) (TaskAt 9)
             (1 # 20) s) in
  let s2 := final (g_main_context_dispatch_source 7 s1) in
  count (is_run_of (TaskAt 9)) (events_since s1 s2) = 1%nat /\
  sources (host s2) !! 7%nat = None /\
  g_main_context_dispatch_source 7 s2 = Ok tt s2.
Proof.
  pose proof (@delayed_dispatch_fires_once exact_rounding (Some (IsolateAt 2)) (TaskAt 9)
                (1 # 20) (example_state 1005500) eq_refl)
    as (_ & _ & _ & Hcount & _ & Hgone & Hagain).
  split; [exact Hcount|]. split; [exact Hgone | exact Hagain].
Defined.

(** A delay of 0.05 s gives a timer of 50 ms. *)
Example delay_of_a_twentieth_second :
  sources (host (final (@CallDelayedOnForegroundThread exact_rounding
                          (Some (IsolateAt 2)) (TaskAt 9) (1 # 20)
                          (example_state 1005500)))) !! 7%nat =
  Some {| interval := 50;
          priority := G_PRIORITY_DEFAULT;
          callback := Some (Callback_HandleDelayedTaskRequest
                              (GumV8TaskRequest.mk 6 ThisPlatform (Some (IsolateAt 2))
                                 (TaskAt 9)));
          attached_to := Some (JsContextOf (SchedulerAt 0));
          ref_count := 1 |}.
Proof. vm_compute. reflexivity. Qed.

(** * Further properties *)

(** ** The operations, run on any state *)

Lemma CallOnBackgroundThread_run (task : Task) (e : ExpectedRuntime) (s : State) :
  CallOnBackgroundThread task e s =
  Ok tt
    (if disposing (this s) then
       mkState (this s)
         (set_trace (trace (host s) ++ [EvTaskRun task; EvTaskDelete task]) (host s))
     else
       mkState (this s)
         (set_thread_pool
            (thread_pool (host s) ++
             [Job_HandleTaskRequest
                (GumV8TaskRequest.mk (next_addr (host s)) ThisPlatform NULL task)])
            (set_trace (trace (host s) ++ [EvRequestNew (next_addr (host s))])
               (set_next_addr (S (next_addr (host s))) (host s))))).
Proof.
  unfold CallOnBackgroundThread. open_state s. destruct dis; run; flatten_trace; reflexivity.
Qed.

Lemma CallOnForegroundThread_run (for_isolate : ptr Isolate) (task : Task) (s : State) :
  CallOnForegroundThread for_isolate task s =
  if disposing (this s) then Abort s
  else
    Ok tt
      (mkState (this s)
         (set_js_thread
            (js_thread (host s) ++
             [(G_PRIORITY_DEFAULT,
               Job_HandleTaskRequest
                 (GumV8TaskRequest.mk (next_addr (host s)) ThisPlatform for_isolate task))])
            (set_trace (trace (host s) ++ [EvRequestNew (next_addr (host s))])
               (set_next_addr (S (next_addr (host s))) (host s))))).
Proof.
  unfold CallOnForegroundThread. open_state s. destruct dis; run; reflexivity.
Qed.

Lemma CallIdleOnForegroundThread_run (for_isolate : ptr Isolate) (task : IdleTask)
    (s : State) :
  CallIdleOnForegroundThread for_isolate task s =
  if disposing (this s) then Abort s
  else
    Ok tt
      (mkState (this s)
         (set_js_thread
            (js_thread (host s) ++
             [(G_PRIORITY_DEFAULT,
               Job_HandleIdleTaskRequest
                 (GumV8TaskRequest.mk (next_addr (host s)) ThisPlatform for_isolate task))])
            (set_trace (trace (host s) ++ [EvRequestNew (next_addr (host s))])
               (set_next_addr (S (next_addr (host s))) (host s))))).
Proof.
  unfold CallIdleOnForegroundThread. open_state s. destruct dis; run; reflexivity.
Qed.

Section OperationsWithDoubles.
Context `{DoubleRounding}.

Lemma CallDelayedOnForegroundThread_abort
    (for_isolate : ptr Isolate) (task : Task) (delay_in_seconds : double) (s : State) :
  disposing (this s) = true ->
  CallDelayedOnForegroundThread for_isolate task delay_in_seconds s = Abort s.
Proof.
  intros Hd. unfold CallDelayedOnForegroundThread. open_state s. run in Hd. subst. run.
  reflexivity.
Qed.

Lemma reading_depends_on_time (s s' : State) :
  clock (host s') = clock (host s) -> start_time (this s') = start_time (this s) ->
  reading s' = reading s.
Proof.
  intros Hc Hst. destruct s as [p h], s' as [p' h'], p, p', h, h'. cbn in *. subst.
  reflexivity.
Qed.

Lemma job_events_depends_on_time (j : Job) (s s' : State) :
  clock (host s') = clock (host s) -> start_time (this s') = start_time (this s) ->
  job_events s' j = job_events s j.
Proof.
  intros Hc Hst. destruct j; cbn [job_events]; [reflexivity|].
  rewrite (reading_depends_on_time s s' Hc Hst). reflexivity.
Qed.

Lemma run_job_run (j : Job) (s : State) :
  run_job j s =
  Ok tt (mkState (this s) (set_trace (trace (host s) ++ job_events s j) (host s))).
Proof.
  destruct j; cbn [run_job job_events].
  - apply HandleTaskRequest_run.
  - apply HandleIdleTaskRequest_run.
Qed.

Lemma thread_pool_step_run (n : nat) (s : State) :
  thread_pool_step n s =
  match thread_pool (host s) !! n with
  | Some j =>
      Ok tt (mkState (this s)
               (set_trace (trace (host s) ++ job_events s j)
                  (set_thread_pool (delete n (thread_pool (host s))) (host s))))
  | None => Ok tt s
  end.
Proof.
  unfold thread_pool_step, bind, get_host, modify_host.
  destruct (thread_pool (host s) !! n) as [j|]; [|reflexivity].
  cbv beta. rewrite run_job_run. cbn [this host].
  rewrite (job_events_depends_on_time j s) by (destruct s as [p []]; reflexivity).
  destruct s as [p []]; reflexivity.
Qed.

Lemma js_thread_step_run (s : State) :
  js_thread_step s =
  match js_thread (host s) with
  | (_, j) :: rest =>
      Ok tt (mkState (this s)
               (set_trace (trace (host s) ++ job_events s j)
                  (set_js_thread rest (host s))))
  | [] => Ok tt s
  end.
Proof.
  unfold js_thread_step, bind, get_host, modify_host.
  destruct (js_thread (host s)) as [|[pr j] rest]; [reflexivity|].
  cbv beta. rewrite run_job_run. cbn [this host].
  rewrite (job_events_depends_on_time j s) by (destruct s as [p []]; reflexivity).
  destruct s as [p []]; reflexivity.
Qed.

End OperationsWithDoubles.

Section OperationCases.
Context `{DoubleRounding}.

Lemma CallDelayedOnForegroundThread_cases
    (for_isolate : ptr Isolate) (task : Task) (delay_in_seconds : double) (s : State) :
  CallDelayedOnForegroundThread for_isolate task delay_in_seconds s =
  if disposing (this s) then Abort s
  else
    let a := next_addr (host s) in
    let request := GumV8TaskRequest.mk a ThisPlatform for_isolate task in
    Ok tt (mkState (this s)
             (set_sources
                (<[S a := delayed_source (this s) request delay_in_seconds]>
                   (sources (host s)))
                (set_trace (trace (host s) ++ [EvRequestNew a])
                   (set_next_addr (S (S a)) (host s))))).
Proof.
  destruct (disposing (this s)) eqn:Hd.
  - apply CallDelayedOnForegroundThread_abort, Hd.
  - apply CallDelayedOnForegroundThread_run, Hd.
Qed.

Lemma g_main_context_dispatch_source_cases (source : nat) (s : State) :
  g_main_context_dispatch_source source s =
  match sources (host s) !! source with
  | Some g =>
      match attached_to g, callback g with
      | Some _, Some (Callback_HandleDelayedTaskRequest request) =>
          Ok tt (mkState (this s)
                   (set_sources (after_destroy source g (sources (host s)))
                      (set_trace
                         (trace (host s) ++ job_events s (Job_HandleTaskRequest request))
                         (host s))))
      | _, _ => Ok tt s
      end
  | None => Ok tt s
  end.
Proof.
  open_state s. unfold g_main_context_dispatch_source. run.
  destruct (src !! source) as [g|] eqn:Hg; [|reflexivity].
  destruct g as [iv pr [[request]|] [ctx|] rc]; run; try reflexivity.
  unfold run_callback, HandleDelayedTaskRequest, HandleTaskRequest, g_source_destroy,
    after_destroy, job_events.
  destruct request as [ra [] [ri|] rtask]; run;
    (erewrite g_source_unref_run by (run; rewrite lookup_alter_eq, Hg; reflexivity));
    run; cbn [ref_count set_attached_to];
    (destruct (decide (rc <= 1)%nat);
     [rewrite delete_alter_eq | rewrite alter_alter_eq]);
    unfold in_isolate; flatten_trace; reflexivity.
Qed.

End OperationCases.

(** ** The platform object under the operations *)

Lemma same_identity_refl p : same_identity p p.
Proof. unfold same_identity. repeat split; reflexivity. Qed.

Lemma same_identity_trans p1 p2 p3 :
  same_identity p1 p2 -> same_identity p2 p3 -> same_identity p1 p3.
Proof.
  unfold same_identity. intros (?&?&?&?&?&?&?) (?&?&?&?&?&?&?).
  repeat split; congruence.
Qed.

Section Identity.
Context `{DoubleRounding}.

Lemma same_identity_perform (a : Action) (s : State) :
  same_identity (this s) (this (final (perform a s))).
Proof.
  destruct (is_getter a) eqn:G.
  - destruct a; try discriminate; cbn [perform]; unfold bind.
    + rewrite GetObjCBundle_run. destruct (objc_bundle (this s)); cbn [final this];
        unfold same_identity; repeat split; reflexivity.
    + rewrite GetJavaBundle_run. destruct (java_bundle (this s)); cbn [final this];
        unfold same_identity; repeat split; reflexivity.
  - destruct (framed_perform a G s) as (-> & _). apply same_identity_refl.
Qed.

Lemma same_identity_perform_all (acts : list Action) (s : State) :
  same_identity (this s) (this (final (perform_all acts s))).
Proof.
  revert s. induction acts as [|a acts IH]; intros s; [apply same_identity_refl|].
  cbn [perform_all]. rewrite final_bind_unit.
  pose proof (same_identity_perform a s) as Ha.
  destruct (perform a s) as [[] s'|s']; cbn [final] in *; [|exact Ha].
  eapply same_identity_trans; [exact Ha | apply IH].
Qed.

(** X1.  No operation on the platform, and nothing the executors do, writes
    [disposing], [isolate], [scheduler], [start_time], the allocator or the
    two eager bundle slots: after any sequence of operations they hold what
    they held before, also when the sequence ended in an abort.  The two lazy
    slots change only from null to a bundle: a slot that is set keeps its
    bundle. *)
Theorem platform_identity_is_stable (acts : list Action) (s : State) :
  let s' := final (perform_all acts s) in
  disposing (this s') = disposing (this s) /\
  isolate (this s') = isolate (this s) /\
  scheduler (this s') = scheduler (this s) /\
  start_time (this s') = start_time (this s) /\
  array_buffer_allocator (this s') = array_buffer_allocator (this s) /\
  runtime_bundle (this s') = runtime_bundle (this s) /\
  debug_bundle (this s') = debug_bundle (this s) /\
  (forall b, objc_bundle (this s) = Some b -> objc_bundle (this s') = Some b) /\
  (forall b, java_bundle (this s) = Some b -> java_bundle (this s') = Some b).
Proof.
  intros s'. destruct (same_identity_perform_all acts s) as (?&?&?&?&?&?&?).
  repeat split; try assumption.
  - intros b. apply objc_bundle_stays_set.
  - intros b. apply java_bundle_stays_set.
Qed.

(** ** Once [disposing] is set *)

Lemma new_requests_job_events (s : State) (j : Job) : new_requests (job_events s j) = [].
Proof.
  destruct j as [request|request]; cbn [job_events]; [|reflexivity].
  destruct (GumV8TaskRequest.isolate request); reflexivity.
Qed.

Lemma winds_down_refl (s : State) : disposing (this s) = true -> winds_down s s.
Proof.
  intros Hd. unfold winds_down. repeat split; try (exact Hd || reflexivity).
  exists []. rewrite app_nil_r. split; reflexivity.
Qed.

Lemma winds_down_trans (s1 s2 s3 : State) :
  winds_down s1 s2 -> winds_down s2 s3 -> winds_down s1 s3.
Proof.
  unfold winds_down.
  intros (_ & P1 & J1 & D1 & evs1 & E1 & N1) (Hd & P2 & J2 & D2 & evs2 & E2 & N2).
  split; [exact Hd|]. split; [etrans; eassumption|]. split; [etrans; eassumption|].
  split; [etrans; eassumption|].
  exists (evs1 ++ evs2). rewrite E2, E1, <- app_assoc. split; [reflexivity|].
  unfold new_requests in *. rewrite omap_app, N1, N2. reflexivity.
Qed.

Lemma dom_after_destroy (source : nat) (g : GSource) (m : gmap nat GSource) :
  dom (after_destroy source g m) ⊆ dom m.
Proof.
  unfold after_destroy. destruct (decide (ref_count g <= 1)%nat).
  - rewrite dom_delete_L. apply subseteq_difference_l. reflexivity.
  - rewrite dom_alter_L. reflexivity.
Qed.

Lemma winds_down_perform (a : Action) (s : State) :
  disposing (this s) = true -> winds_down s (final (perform a s)).
Proof.
  intros Hd.
  assert (Hsame : forall p h evs,
            disposing p = true ->
            thread_pool h `sublist_of` thread_pool (host s) ->
            js_thread h `sublist_of` js_thread (host s) ->
            dom (sources h) ⊆ dom (sources (host s)) ->
            trace h = trace (host s) ++ evs -> new_requests evs = [] ->
            winds_down s (mkState p h)).
  { intros p h evs ? ? ? ? ? ?. unfold winds_down. cbn [this host].
    repeat split; try assumption. exists evs. split; assumption. }
  destruct a; cbn [perform]; unfold bind.
  - rewrite GetObjCBundle_run.
    destruct (objc_bundle (this s)); cbn [final]; [apply winds_down_refl, Hd|].
    eapply Hsame; try reflexivity. exact Hd.
  - rewrite GetJavaBundle_run.
    destruct (java_bundle (this s)); cbn [final]; [apply winds_down_refl, Hd|].
    eapply Hsame; try reflexivity. exact Hd.
  - rewrite CallOnBackgroundThread_run, Hd. cbn [final].
    eapply Hsame; try reflexivity. exact Hd.
  - rewrite CallOnForegroundThread_run, Hd. apply winds_down_refl, Hd.
  - rewrite CallDelayedOnForegroundThread_cases, Hd. apply winds_down_refl, Hd.
  - rewrite CallIdleOnForegroundThread_run, Hd. apply winds_down_refl, Hd.
  - apply winds_down_refl, Hd.
  - rewrite MonotonicallyIncreasingTime_pure. apply winds_down_refl, Hd.
  - rewrite thread_pool_step_run.
    destruct (thread_pool (host s) !! n); cbn [final]; [|apply winds_down_refl, Hd].
    eapply Hsame; try reflexivity.
    + exact Hd.
    + apply sublist_delete.
    + apply new_requests_job_events.
  - rewrite js_thread_step_run.
    destruct (js_thread (host s)) as [|[pr j] rest] eqn:Ejs; cbn [final];
      [apply winds_down_refl, Hd|].
    eapply Hsame; try reflexivity.
    + exact Hd.
    + cbn. apply sublist_cons. reflexivity.
    + apply new_requests_job_events.
  - rewrite g_main_context_dispatch_source_cases.
    destruct (sources (host s) !! source) as [g|]; [|apply winds_down_refl, Hd].
    destruct (attached_to g); [|apply winds_down_refl, Hd].
    destruct (callback g) as [[request]|]; [|apply winds_down_refl, Hd].
    cbn [final]. eapply Hsame; try reflexivity.
    + exact Hd.
    + apply dom_after_destroy.
    + apply new_requests_job_events.
  - unfold clock_advance, modify_host. cbn [final].
    eapply (Hsame _ _ []); try reflexivity.
    + exact Hd.
    + cbn. rewrite app_nil_r. reflexivity.
Qed.

Lemma winds_down_perform_all (acts : list Action) (s : State) :
  disposing (this s) = true -> winds_down s (final (perform_all acts s)).
Proof.
  revert s. induction acts as [|a acts IH]; intros s Hd; [apply winds_down_refl, Hd|].
  cbn [perform_all]. rewrite final_bind_unit.
  pose proof (winds_down_perform a s Hd) as Ha.
  destruct (perform a s) as [[] s'|s']; cbn [final] in *; [|exact Ha].
  eapply winds_down_trans; [exact Ha|]. apply IH. apply Ha.
Qed.

(** X2.  Once [disposing] is set it stays set, and from then on nothing is
    submitted, whatever is called and whatever the executors do: the thread
    pool's queue, the JS thread's queue and the timers only lose entries, no
    request is allocated, every foreground, delayed and idle dispatch aborts
    where it stands, and a background dispatch leaves the pool's queue as it
    is. *)
Theorem nothing_is_submitted_once_disposing (acts : list Action) (s : State) :
  disposing (this s) = true ->
  let s' := final (perform_all acts s) in
  disposing (this s') = true /\
  thread_pool (host s') `sublist_of` thread_pool (host s) /\
  js_thread (host s') `sublist_of` js_thread (host s) /\
  dom (sources (host s')) ⊆ dom (sources (host s)) /\
  new_requests (events_since s s') = [] /\
  (forall i t, CallOnForegroundThread i t s' = Abort s') /\
  (forall i t d, CallDelayedOnForegroundThread i t d s' = Abort s') /\
  (forall i t, CallIdleOnForegroundThread i t s' = Abort s') /\
  (forall t e,
     thread_pool (host (final (CallOnBackgroundThread t e s'))) = thread_pool (host s')).
Proof.
  intros Hd s'.
  destruct (winds_down_perform_all acts s Hd) as (Hd' & HP & HJ & HD & evs & Et & Hn).
  fold s' in Hd', HP, HJ, HD, Et. clearbody s'.
  split; [exact Hd'|]. split; [exact HP|]. split; [exact HJ|]. split; [exact HD|].
  split; [rewrite (events_since_app _ _ _ Et); exact Hn|].
  split; [intros; rewrite CallOnForegroundThread_run, Hd'; reflexivity|].
  split; [intros; apply CallDelayedOnForegroundThread_abort, Hd'|].
  split; [intros; rewrite CallIdleOnForegroundThread_run, Hd'; reflexivity|].
  intros t e. rewrite CallOnBackgroundThread_run, Hd'. reflexivity.
Qed.

End Identity.

Lemma nothing_is_submitted_once_disposing_witness :
  let s := final (GumV8Platform_delete (example_state 1005500)) in
  let s' := final (@perform_all exact_rounding
                     [DoCallOnBackgroundThread (TaskAt 9) kLongRunningTask;
                      DoGetObjCBundle; DoClockAdvance 10] s) in
  disposing (this s') = true /\
  new_requests (events_since s s') = [] /\
  CallOnForegroundThread NULL (TaskAt 10) s' = Abort s'.
Proof.
  pose proof (@nothing_is_submitted_once_disposing exact_rounding
                [DoCallOnBackgroundThread (TaskAt 9) kLongRunningTask;
                 DoGetObjCBundle; DoClockAdvance 10]
                (final (GumV8Platform_delete (example_state 1005500))) eq_refl)
    as (Hd & _ & _ & _ & Hn & Hfg & _).
  split; [exact Hd|]. split; [exact Hn | apply Hfg].
Defined.

(** ** Scopes *)

Lemma scopes_after_app (open : list Scope) (l1 l2 : list Event) :
  scopes_after open (l1 ++ l2) =
  match scopes_after open l1 with
  | Some open' => scopes_after open' l2
  | None => None
  end.
Proof.
  revert open. induction l1 as [|e l1 IH]; intros open; [reflexivity|].
  cbn. destruct (scope_step open e); [apply IH | reflexivity].
Qed.

Lemma well_nested_nil : well_nested [].
Proof. intros open. reflexivity. Qed.

Lemma well_nested_app (l1 l2 : list Event) :
  well_nested l1 -> well_nested l2 -> well_nested (l1 ++ l2).
Proof. intros H1 H2 open. rewrite scopes_after_app, H1. apply H2. Qed.

Lemma well_nested_plain (l : list Event) :
  forallb (fun e => negb (is_scope_event e)) l = true -> well_nested l.
Proof.
  induction l as [|e l IH]; intros Hl open; [reflexivity|].
  cbn in Hl. apply andb_prop in Hl as [He Hl].
  cbn. destruct e; try discriminate; cbn; apply IH, Hl.
Qed.

Lemma well_nested_in_isolate (i : ptr Isolate) (body : list Event) :
  well_nested body -> well_nested (in_isolate i body).
Proof.
  intros Hb open. unfold in_isolate. cbn.
  rewrite scopes_after_app, Hb. cbn. rewrite !decide_True by reflexivity. reflexivity.
Qed.

Lemma well_nested_job_events `{DoubleRounding} (s : State) (j : Job) :
  well_nested (job_events s j).
Proof.
  destruct j as [request|request]; cbn [job_events].
  - cbn zeta. destruct (GumV8TaskRequest.isolate request).
    + apply well_nested_in_isolate, well_nested_plain. reflexivity.
    + apply well_nested_plain. reflexivity.
  - apply well_nested_in_isolate, well_nested_plain. reflexivity.
Qed.

Lemma well_nested_run_in_place (l : list Task) : well_nested (run_in_place l).
Proof.
  apply well_nested_plain. induction l as [|t l IH]; [reflexivity | exact IH].
Qed.

Lemma well_nested_teardown_events (p : GumV8Platform) (l : list Task) :
  well_nested (teardown_events p l).
Proof.
  unfold teardown_events.
  apply well_nested_app; [apply well_nested_plain; reflexivity|].
  apply well_nested_app.
  { apply well_nested_in_isolate, well_nested_plain. unfold slot_free.
    destruct (objc_bundle p), (java_bundle p); reflexivity. }
  apply well_nested_app; [apply well_nested_plain; reflexivity|].
  apply well_nested_app; [apply well_nested_run_in_place|].
  apply well_nested_plain. reflexivity.
Qed.

Section Nesting.
Context `{DoubleRounding}.

(** Every operation adds well nested events only. *)
Lemma perform_well_nested (a : Action) (s : State) :
  exists evs,
    trace (host (final (perform a s))) = trace (host s) ++ evs /\ well_nested evs.
Proof.
  assert (Hnone : exists evs, trace (host s) = trace (host s) ++ evs /\ well_nested evs).
  { exists []. rewrite app_nil_r. split; [reflexivity | apply well_nested_nil]. }
  destruct a; cbn [perform]; unfold bind.
  - rewrite GetObjCBundle_run.
    destruct (objc_bundle (this s)); cbn [final]; [exact Hnone|].
    eexists. split; [reflexivity | apply well_nested_plain; reflexivity].
  - rewrite GetJavaBundle_run.
    destruct (java_bundle (this s)); cbn [final]; [exact Hnone|].
    eexists. split; [reflexivity | apply well_nested_plain; reflexivity].
  - rewrite CallOnBackgroundThread_run.
    destruct (disposing (this s)); cbn [final];
      (eexists; split; [reflexivity | apply well_nested_plain; reflexivity]).
  - rewrite CallOnForegroundThread_run.
    destruct (disposing (this s)); cbn [final]; [exact Hnone|].
    eexists. split; [reflexivity | apply well_nested_plain; reflexivity].
  - rewrite CallDelayedOnForegroundThread_cases.
    destruct (disposing (this s)); cbn [final]; [exact Hnone|].
    eexists. split; [reflexivity | apply well_nested_plain; reflexivity].
  - rewrite CallIdleOnForegroundThread_run.
    destruct (disposing (this s)); cbn [final]; [exact Hnone|].
    eexists. split; [reflexivity | apply well_nested_plain; reflexivity].
  - exact Hnone.
  - rewrite MonotonicallyIncreasingTime_pure. exact Hnone.
  - rewrite thread_pool_step_run.
    destruct (thread_pool (host s) !! n); cbn [final]; [|exact Hnone].
    eexists. split; [reflexivity | apply well_nested_job_events].
  - rewrite js_thread_step_run.
    destruct (js_thread (host s)) as [|[pr j] rest]; cbn [final]; [exact Hnone|].
    eexists. split; [reflexivity | apply well_nested_job_events].
  - rewrite g_main_context_dispatch_source_cases.
    destruct (sources (host s) !! source) as [g|]; [|exact Hnone].
    destruct (attached_to g); [|exact Hnone].
    destruct (callback g) as [[request]|]; [|exact Hnone].
    cbn [final]. eexists. split; [reflexivity | apply well_nested_job_events].
  - unfold clock_advance, modify_host. cbn [final]. exists [].
    cbn. rewrite app_nil_r. split; [reflexivity | apply well_nested_nil].
Qed.

Lemma perform_all_well_nested (acts : list Action) (s : State) :
  exists evs,
    trace (host (final (perform_all acts s))) = trace (host s) ++ evs /\ well_nested evs.
Proof.
  revert s. induction acts as [|a acts IH]; intros s.
  - exists []. cbn. rewrite app_nil_r. split; [reflexivity | apply well_nested_nil].
  - cbn [perform_all]. rewrite final_bind_unit.
    destruct (perform_well_nested a s) as (evs1 & E1 & W1).
    destruct (perform a s) as [[] s'|s']; cbn [final] in *.
    + destruct (IH s') as (evs2 & E2 & W2). exists (evs1 ++ evs2).
      rewrite E2, E1, <- app_assoc. split; [reflexivity | apply well_nested_app; assumption].
    + exists evs1. split; assumption.
Qed.

Lemma GumV8Platform_new_well_nested (s0 : State) :
  exists evs,
    trace (host (final (GumV8Platform_new s0))) = trace (host s0) ++ evs /\
    well_nested evs.
Proof.
  pose proof (GumV8Platform_new_run s0) as Hnew. cbn zeta in Hnew.
  destruct Hnew as (_ & Htr & _). eexists. split; [exact Htr|].
  intros open. cbn. rewrite !decide_True by reflexivity. reflexivity.
Qed.

(** X3.  The scopes the platform enters are well nested: in the events of
    the constructor, in those of the constructor followed by any operations
    and executor steps, and in those of a whole life up to the end of the
    destructor, every [Locker], [Isolate::Scope], [HandleScope] and
    [Context::Scope] that was entered has been left, each exit closing the
    innermost open scope of the same isolate or context.  So no operation
    returns with the isolate's lock held. *)
Theorem scopes_are_well_nested (s0 : State) (acts : list Action) :
  let s1 := final (GumV8Platform_new s0) in
  let s2 := final (perform_all acts s1) in
  let s3 := final (GumV8Platform_delete s2) in
  scopes_after [] (events_since s0 s1) = Some [] /\
  scopes_after [] (events_since s0 s2) = Some [] /\
  scopes_after [] (events_since s0 s3) = Some [].
Proof.
  intros s1 s2 s3.
  destruct (GumV8Platform_new_well_nested s0) as (evs1 & E1 & W1). fold s1 in E1.
  destruct (perform_all_well_nested acts s1) as (evs2 & E2 & W2). fold s2 in E2.
  assert (E3 : trace (host s3) =
               trace (host s2) ++ teardown_events (this s2) (v8_dispose_posts (host s2))).
  { subst s3. rewrite GumV8Platform_delete_run. reflexivity. }
  clearbody s3. clearbody s2. clearbody s1.
  rewrite E1 in E2. rewrite <- app_assoc in E2. rewrite E2 in E3.
  rewrite <- app_assoc in E3.
  rewrite (events_since_app _ _ _ E1), (events_since_app _ _ _ E2),
    (events_since_app _ _ _ E3).
  split; [apply W1|]. split; [apply well_nested_app; assumption|].
  apply well_nested_app; [apply well_nested_app; assumption|].
  apply well_nested_teardown_events.
Qed.

End Nesting.

(** An exit that names another isolate than the innermost scope is
    refused. *)
Example scopes_after_rejects_a_wrong_exit :
  scopes_after []
    [EvLockerEnter (Some (IsolateAt 1)); EvLockerExit (Some (IsolateAt 2))] = None /\
  scopes_after []
    [EvLockerEnter NULL; EvHandleScopeEnter NULL; EvLockerExit NULL] = None /\
  scopes_after [] [EvLockerEnter NULL; EvTaskRun (TaskAt 1)] = Some [InLocker NULL].
Proof. repeat split; reflexivity. Qed.

(** ** Requests: allocated once, released once *)

Lemma accounted_step (s0 s s' : State) (evs' : list Event) :
  accounted s0 s ->
  trace (host s') = trace (host s) ++ evs' ->
  (next_addr (host s) <= next_addr (host s'))%nat ->
  new_requests evs' ++ pending_requests (host s) ≡ₚ
    freed_requests evs' ++ pending_requests (host s') ->
  NoDup (new_requests evs') ->
  (forall a, a ∈ new_requests evs' ->
     (next_addr (host s) <= a < next_addr (host s'))%nat) ->
  timers_ok (host s') ->
  accounted s0 s'.
Proof.
  intros [(evs & Et & Eb & Hn & Hlt) _] Et' Hnext Hbal Hn' Hrange Htimers.
  split; [|exact Htimers].
  exists (evs ++ evs'). split; [rewrite Et', Et, <- app_assoc; reflexivity|].
  unfold new_requests, freed_requests in *. rewrite !omap_app.
  split; [|split].
  - rewrite Eb, <- !app_assoc.
    apply Permutation_app_head.
    rewrite (Permutation_app_comm (pending_requests (host s))), Hbal. reflexivity.
  - apply NoDup_app. split; [exact Hn|]. split; [|exact Hn'].
    intros a Ha Ha'. specialize (Hlt a Ha). specialize (Hrange a Ha'). lia.
  - intros a Ha. apply elem_of_app in Ha as [Ha|Ha].
    + specialize (Hlt a Ha). lia.
    + specialize (Hrange a Ha). lia.
Qed.

(** A step that neither allocates nor releases a request and leaves the
    queues and the timers alone. *)
Lemma accounted_quiet (s0 s : State) (p : GumV8Platform) (h : Host) (evs' : list Event) :
  accounted s0 s ->
  trace h = trace (host s) ++ evs' ->
  new_requests evs' = [] -> freed_requests evs' = [] ->
  (next_addr (host s) <= next_addr h)%nat ->
  thread_pool h = thread_pool (host s) ->
  js_thread h = js_thread (host s) ->
  sources h = sources (host s) ->
  accounted s0 (mkState p h).
Proof.
  intros A Et En Ef Hnext Hp Hj Hs.
  apply (accounted_step s0 s _ evs' A); cbn [host]; try assumption.
  - rewrite En, Ef. unfold pending_requests. rewrite Hp, Hj, Hs. reflexivity.
  - rewrite En. apply NoDup_nil_2.
  - rewrite En. intros a Ha. apply elem_of_nil in Ha as [].
  - intros i g Hg. rewrite Hs in Hg. destruct (a_timers _ _ A i g Hg) as (? & ?).
    split; [lia | assumption].
Qed.

(** A step that allocates the request at the next free address and makes it
    wait. *)
Lemma accounted_submit (s0 s : State) (p : GumV8Platform) (h : Host) :
  accounted s0 s ->
  trace h = trace (host s) ++ [EvRequestNew (next_addr (host s))] ->
  (next_addr (host s) < next_addr h)%nat ->
  pending_requests h ≡ₚ next_addr (host s) :: pending_requests (host s) ->
  timers_ok h ->
  accounted s0 (mkState p h).
Proof.
  intros A Et Hnext Hp Ht.
  apply (accounted_step s0 s (mkState p h) _ A Et); cbn [host]; try assumption.
  - lia.
  - cbn. rewrite Hp. reflexivity.
  - cbn. apply NoDup_singleton.
  - cbn. intros a Ha. apply list_elem_of_singleton in Ha as ->. lia.
Qed.

(** A step that runs the handler of a waiting request. *)
Lemma accounted_release `{DoubleRounding} (s0 s : State) (p : GumV8Platform) (h : Host)
    (j : Job) :
  accounted s0 s ->
  trace h = trace (host s) ++ job_events s j ->
  next_addr h = next_addr (host s) ->
  pending_requests (host s) ≡ₚ job_addr j :: pending_requests h ->
  sources h ⊆ sources (host s) ->
  accounted s0 (mkState p h).
Proof.
  intros A Et Hnext Hp Hsub.
  assert (Hnew : new_requests (job_events s j) = []) by apply new_requests_job_events.
  assert (Hfreed : freed_requests (job_events s j) = [job_addr j]).
  { destruct j as [request|request]; cbn [job_events job_addr]; [|reflexivity].
    destruct (GumV8TaskRequest.isolate request); reflexivity. }
  apply (accounted_step s0 s (mkState p h) _ A Et); cbn [host].
  - lia.
  - rewrite Hnew, Hfreed. cbn. exact Hp.
  - rewrite Hnew. apply NoDup_nil_2.
  - rewrite Hnew. intros a Ha. apply elem_of_nil in Ha as [].
  - intros i g Hg. rewrite Hnext.
    apply (a_timers _ _ A i g). eapply lookup_weaken; eassumption.
Qed.

Lemma timer_requests_insert (m : gmap nat GSource) (i : nat) (g : GSource)
    (request : GumV8TaskRequest.t Task) :
  m !! i = None ->
  callback g = Some (Callback_HandleDelayedTaskRequest request) ->
  timer_requests (<[i := g]> m) ≡ₚ GumV8TaskRequest.addr request :: timer_requests m.
Proof.
  intros Hi Hc. unfold timer_requests. rewrite (map_to_list_insert m i g Hi).
  cbn. unfold timer_request at 1. cbn. rewrite Hc. reflexivity.
Qed.

Lemma timer_requests_delete (m : gmap nat GSource) (i : nat) (g : GSource)
    (request : GumV8TaskRequest.t Task) :
  m !! i = Some g ->
  callback g = Some (Callback_HandleDelayedTaskRequest request) ->
  timer_requests m ≡ₚ GumV8TaskRequest.addr request :: timer_requests (delete i m).
Proof.
  intros Hi Hc. unfold timer_requests. rewrite <- (map_to_list_delete m i g Hi).
  cbn. unfold timer_request at 1. cbn. rewrite Hc. reflexivity.
Qed.

Section Accounting.
Context `{DoubleRounding}.

Lemma accounted_perform (s0 s : State) (a : Action) :
  accounted s0 s -> accounted s0 (final (perform a s)).
Proof.
  intros A.
  assert (Hquiet : forall p evs' n,
            new_requests evs' = [] -> freed_requests evs' = [] ->
            (next_addr (host s) <= n)%nat ->
            accounted s0
              (mkState p (set_trace (trace (host s) ++ evs') (set_next_addr n (host s))))).
  { intros p evs' n ? ? ?. eapply accounted_quiet; try eassumption; reflexivity. }
  assert (Hsame : accounted s0 s) by exact A.
  destruct a; cbn [perform]; unfold bind.
  - rewrite GetObjCBundle_run.
    destruct (objc_bundle (this s)); cbn [final]; [exact A|].
    apply Hquiet; (reflexivity || lia).
  - rewrite GetJavaBundle_run.
    destruct (java_bundle (this s)); cbn [final]; [exact A|].
    apply Hquiet; (reflexivity || lia).
  - rewrite CallOnBackgroundThread_run.
    destruct (disposing (this s)); cbn [final].
    + eapply accounted_quiet; try exact A; reflexivity.
    + apply (accounted_submit s0 s); try exact A; cbn; try (reflexivity || lia).
      * unfold pending_requests. cbn. rewrite fmap_app, <- app_assoc. cbn.
        symmetry. apply Permutation_middle.
      * intros i g Hg. destruct (a_timers _ _ A i g Hg) as (? & ?).
        split; [cbn; lia | assumption].
  - rewrite CallOnForegroundThread_run.
    destruct (disposing (this s)); cbn [final]; [exact A|].
    apply (accounted_submit s0 s); try exact A; cbn; try (reflexivity || lia).
    + unfold pending_requests. cbn. rewrite fmap_app, <- app_assoc. cbn.
      rewrite <- !Permutation_middle. reflexivity.
    + intros i g Hg. destruct (a_timers _ _ A i g Hg) as (? & ?).
      split; [cbn; lia | assumption].
  - rewrite CallDelayedOnForegroundThread_cases.
    destruct (disposing (this s)); cbn [final]; [exact A|].
    assert (Hfresh : sources (host s) !! S (next_addr (host s)) = None).
    { destruct (sources (host s) !! S (next_addr (host s))) as [g|] eqn:Hg; [|reflexivity].
      destruct (a_timers _ _ A _ g Hg) as (? & _). lia. }
    apply (accounted_submit s0 s); try exact A; cbn; try (reflexivity || lia).
    + unfold pending_requests. cbn.
      erewrite timer_requests_insert; [|exact Hfresh|reflexivity]. cbn.
      rewrite <- !Permutation_middle. reflexivity.
    + intros i g Hg. cbn in Hg. apply lookup_insert_Some in Hg as [[<- <-]|[_ Hg]].
      * cbn. split; [lia|]. repeat split; eexists; reflexivity.
      * destruct (a_timers _ _ A i g Hg) as (? & ?). split; [cbn; lia | assumption].
  - rewrite CallIdleOnForegroundThread_run.
    destruct (disposing (this s)); cbn [final]; [exact A|].
    apply (accounted_submit s0 s); try exact A; cbn; try (reflexivity || lia).
    + unfold pending_requests. cbn. rewrite fmap_app, <- app_assoc. cbn.
      rewrite <- !Permutation_middle. reflexivity.
    + intros i g Hg. destruct (a_timers _ _ A i g Hg) as (? & ?).
      split; [cbn; lia | assumption].
  - exact A.
  - rewrite MonotonicallyIncreasingTime_pure. exact A.
  - rewrite thread_pool_step_run.
    destruct (thread_pool (host s) !! n) as [j|] eqn:Hj; cbn [final]; [|exact A].
    apply (accounted_release s0 s _ _ j A); cbn; try reflexivity.
    unfold pending_requests. cbn.
    rewrite (delete_Permutation _ _ _ Hj) at 1. reflexivity.
  - rewrite js_thread_step_run.
    destruct (js_thread (host s)) as [|[pr j] rest] eqn:Ejs; cbn [final]; [exact A|].
    apply (accounted_release s0 s _ _ j A); cbn; try reflexivity.
    unfold pending_requests. cbn. rewrite Ejs. cbn.
    rewrite <- Permutation_middle. reflexivity.
  - rewrite g_main_context_dispatch_source_cases.
    destruct (sources (host s) !! source) as [g|] eqn:Hg; [|exact A].
    destruct (a_timers _ _ A _ g Hg) as (_ & _ & _ & Href).
    destruct (attached_to g); [|exact A].
    destruct (callback g) as [[request]|] eqn:Hc; [|exact A].
    cbn [final]. unfold after_destroy. rewrite decide_True by lia.
    apply (accounted_release s0 s _ _ (Job_HandleTaskRequest request) A);
      cbn; try reflexivity.
    + unfold pending_requests. cbn.
      rewrite (timer_requests_delete _ _ _ _ Hg Hc) at 1.
      rewrite <- !Permutation_middle. reflexivity.
    + apply delete_subseteq.
  - unfold clock_advance, modify_host. cbn [final].
    eapply (accounted_quiet s0 s _ _ []); try exact A; try reflexivity.
    cbn. rewrite app_nil_r. reflexivity.
Qed.

Lemma accounted_perform_all (s0 s : State) (acts : list Action) :
  accounted s0 s -> accounted s0 (final (perform_all acts s)).
Proof.
  revert s. induction acts as [|a acts IH]; intros s A; [exact A|].
  cbn [perform_all]. rewrite final_bind_unit.
  pose proof (accounted_perform s0 s a A) as A'.
  destruct (perform a s) as [[] s'|s']; cbn [final] in A'; [apply IH; exact A' | exact A'].
Qed.

Lemma accounted_start (s0 : State) :
  thread_pool (host s0) = [] -> js_thread (host s0) = [] -> sources (host s0) = ∅ ->
  accounted s0 s0.
Proof.
  intros Hp Hj Hs. split.
  - exists []. rewrite app_nil_r. split; [reflexivity|].
    unfold pending_requests, timer_requests. rewrite Hp, Hj, Hs, map_to_list_empty. cbn.
    split; [reflexivity|]. split; [apply NoDup_nil_2|].
    intros a Ha. apply elem_of_nil in Ha as [].
  - intros i g Hg. rewrite Hs, lookup_empty in Hg. discriminate.
Qed.

(** X4.  Starting with empty queues and no timers, after any sequence of
    operations and executor steps: no request was allocated twice, no request
    was released twice, every released request had been allocated by a
    dispatch, and the requests allocated are exactly those released together
    with those still waiting in a queue or a timer.  So when the queues and
    timers are empty again, every request has been released. *)
Theorem requests_are_released_once (acts : list Action) (s0 : State) :
  thread_pool (host s0) = [] -> js_thread (host s0) = [] -> sources (host s0) = ∅ ->
  let s := final (perform_all acts s0) in
  let evs := events_since s0 s in
  NoDup (new_requests evs) /\
  NoDup (freed_requests evs) /\
  freed_requests evs ⊆ new_requests evs /\
  new_requests evs ≡ₚ freed_requests evs ++ pending_requests (host s) /\
  (pending_requests (host s) = [] -> freed_requests evs ≡ₚ new_requests evs).
Proof.
  intros Hp Hj Hs s evs.
  destruct (accounted_perform_all s0 s0 acts (accounted_start s0 Hp Hj Hs))
    as [(evs0 & Et & Eb & Hn & _) _].
  fold s in Et, Eb. subst evs. rewrite (events_since_app _ _ _ Et). clearbody s.
  split; [exact Hn|].
  assert (Hn2 : NoDup (freed_requests evs0 ++ pending_requests (host s)))
    by (rewrite <- Eb; exact Hn).
  apply NoDup_app in Hn2 as (Hnf & _ & _).
  split; [exact Hnf|]. split.
  - intros a Ha. rewrite Eb. apply elem_of_app. left. exact Ha.
  - split; [exact Eb|]. intros Hnone. rewrite Eb, Hnone, app_nil_r. reflexivity.
Qed.

End Accounting.

Lemma requests_are_released_once_witness :
  let acts :=
    [DoCallOnForegroundThread (Some (IsolateAt 2)) (TaskAt 9);
     DoCallDelayedOnForegroundThread NULL (TaskAt 10) (1 # 20);
     DoCallOnBackgroundThread (TaskAt 11) kShortRunningTask;
     DoJsThreadStep; DoDispatchSource 8] in
  let s := final (@perform_all exact_rounding acts (example_state 1005500)) in
  let evs := events_since (example_state 1005500) s in
  NoDup (freed_requests evs) /\
  new_requests evs ≡ₚ freed_requests evs ++ pending_requests (host s).
Proof.
  pose proof (@requests_are_released_once exact_rounding
                [DoCallOnForegroundThread (Some (IsolateAt 2)) (TaskAt 9);
                 DoCallDelayedOnForegroundThread NULL (TaskAt 10) (1 # 20);
                 DoCallOnBackgroundThread (TaskAt 11) kShortRunningTask;
                 DoJsThreadStep; DoDispatchSource 8]
                (example_state 1005500) eq_refl eq_refl eq_refl)
    as (_ & Hf & _ & Hb & _).
  split; [exact Hf | exact Hb].
Defined.

(** In that run the requests at 6 and 7 are released and the one at 9 waits
    in the pool. *)
Example requests_of_the_example_run :
  let s := final (@perform_all exact_rounding
                    [DoCallOnForegroundThread (Some (IsolateAt 2)) (TaskAt 9);
                     DoCallDelayedOnForegroundThread NULL (TaskAt 10) (1 # 20);
                     DoCallOnBackgroundThread (TaskAt 11) kShortRunningTask;
                     DoJsThreadStep; DoDispatchSource 8]
                    (example_state 1005500)) in
  new_requests (trace (host s)) = [6; 7; 9]%nat /\
  freed_requests (trace (host s)) = [6; 7]%nat /\
  pending_requests (host s) = [9]%nat.
Proof. vm_compute. repeat split; reflexivity. Qed.

(** ** A dispatch and the executor step that serves it *)

Section DispatchAndExecute.
Context `{DoubleRounding}.

(** X5.  A background task that is dispatched while [disposing] is clear and
    then taken by a pool thread: the request is allocated, the task is run
    and deleted, the request is released, in this order and with no scope of
    any isolate entered; the pool's queue is then what it was before the
    dispatch, and the platform object, the JS thread's queue and the timers
    were never touched. *)
Theorem background_task_runs_without_lock
    (task : Task) (e : ExpectedRuntime) (s : State) :
  disposing (this s) = false ->
  let a := next_addr (host s) in
  let s1 := final (CallOnBackgroundThread task e s) in
  let s2 := final (thread_pool_step (length (thread_pool (host s))) s1) in
  events_since s s2 =
    [EvRequestNew a; EvTaskRun task; EvTaskDelete task; EvRequestFree a] /\
  forallb (fun ev => negb (is_scope_event ev)) (events_since s s2) = true /\
  thread_pool (host s2) = thread_pool (host s) /\
  js_thread (host s2) = js_thread (host s) /\
  sources (host s2) = sources (host s) /\
  this s2 = this s.
Proof.
  intros Hd a s1 s2.
  assert (Hdel : forall (l : list Job) x, delete (length l) (l ++ [x]) = l).
  { intros l x. induction l as [|y l IH]; [reflexivity|]. cbn. f_equal. exact IH. }
  assert (E1 : s1 = mkState (this s)
                 (set_thread_pool
                    (thread_pool (host s) ++
                     [Job_HandleTaskRequest
                        (GumV8TaskRequest.mk a ThisPlatform NULL task)])
                    (set_trace (trace (host s) ++ [EvRequestNew a])
                       (set_next_addr (S a) (host s))))).
  { subst s1. rewrite CallOnBackgroundThread_run, Hd. reflexivity. }
  clearbody s1.
  assert (E2 : s2 = mkState (this s)
                 (set_trace
                    (trace (host s) ++
                     [EvRequestNew a; EvTaskRun task; EvTaskDelete task; EvRequestFree a])
                    (set_next_addr (S a) (host s)))).
  { subst s2. rewrite thread_pool_step_run. subst s1.
    cbn [host thread_pool set_thread_pool set_trace].
    rewrite lookup_app_r by reflexivity. rewrite Nat.sub_diag.
    cbn [lookup list_lookup final]. rewrite Hdel.
    destruct s as [p []]. cbn. rewrite <- app_assoc. reflexivity. }
  clearbody s2. rewrite E2.
  assert (Hev : events_since s
                  (mkState (this s)
                     (set_trace
                        (trace (host s) ++
                         [EvRequestNew a; EvTaskRun task; EvTaskDelete task;
                          EvRequestFree a])
                        (set_next_addr (S a) (host s)))) =
                [EvRequestNew a; EvTaskRun task; EvTaskDelete task; EvRequestFree a])
    by (apply events_since_app; reflexivity).
  rewrite Hev. repeat split; reflexivity.
Qed.

(** X6.  On a JS thread whose queue is empty, a foreground task and then an
    idle task are dispatched, and the JS thread takes two jobs: the plain task
    runs first and the idle task second, each inside the scopes of the
    isolate it was dispatched for, the idle one with a deadline read at its
    own execution; both requests are released and the queue is empty
    again. *)
Theorem foreground_then_idle_run_in_order
    (i1 i2 : Isolate) (task : Task) (idle_task : IdleTask) (s : State) :
  disposing (this s) = false ->
  js_thread (host s) = [] ->
  let a := next_addr (host s) in
  let s1 := final (CallOnForegroundThread (Some i1) task s) in
  let s2 := final (CallIdleOnForegroundThread (Some i2) idle_task s1) in
  let s3 := final (js_thread_step s2) in
  let s4 := final (js_thread_step s3) in
  events_since s s4 =
    [EvRequestNew a; EvRequestNew (S a)] ++
    in_isolate (Some i1) [EvTaskRun task; EvTaskDelete task; EvRequestFree a] ++
    in_isolate (Some i2)
      [EvIdleTaskRun idle_task
         (double_add (reading s3) (double_div (double_lit 1) (double_lit 60)));
       EvIdleTaskDelete idle_task; EvRequestFree (S a)] /\
  js_thread (host s4) = [] /\
  thread_pool (host s4) = thread_pool (host s) /\
  sources (host s4) = sources (host s).
Proof.
  intros Hd Hjs a s1 s2 s3 s4.
  assert (E1 : s1 = mkState (this s)
                 (set_js_thread
                    [(G_PRIORITY_DEFAULT,
                      Job_HandleTaskRequest
                        (GumV8TaskRequest.mk a ThisPlatform (Some i1) task))]
                    (set_trace (trace (host s) ++ [EvRequestNew a])
                       (set_next_addr (S a) (host s))))).
  { subst s1. rewrite CallOnForegroundThread_run, Hd, Hjs. reflexivity. }
  assert (E2 : s2 = mkState (this s)
                 (set_js_thread
                    [(G_PRIORITY_DEFAULT,
                      Job_HandleTaskRequest
                        (GumV8TaskRequest.mk a ThisPlatform (Some i1) task));
                     (G_PRIORITY_DEFAULT,
                      Job_HandleIdleTaskRequest
                        (GumV8TaskRequest.mk (S a) ThisPlatform (Some i2) idle_task))]
                    (set_trace (trace (host s) ++ [EvRequestNew a; EvRequestNew (S a)])
                       (set_next_addr (S (S a)) (host s))))).
  { subst s2. rewrite CallIdleOnForegroundThread_run, E1. cbn [this].
    rewrite Hd. destruct s as [p []]. cbn. rewrite <- app_assoc. reflexivity. }
  assert (E3 : s3 = mkState (this s)
                 (set_js_thread
                    [(G_PRIORITY_DEFAULT,
                      Job_HandleIdleTaskRequest
                        (GumV8TaskRequest.mk (S a) ThisPlatform (Some i2) idle_task))]
                    (set_trace
                       (trace (host s) ++ [EvRequestNew a; EvRequestNew (S a)] ++
                        in_isolate (Some i1)
                          [EvTaskRun task; EvTaskDelete task; EvRequestFree a])
                       (set_next_addr (S (S a)) (host s))))).
  { subst s3. rewrite js_thread_step_run, E2. destruct s as [p []]. cbn.
    rewrite <- !app_assoc. reflexivity. }
  clearbody s1 s2 s3.
  assert (E4 : s4 = mkState (this s)
                 (set_js_thread []
                    (set_trace
                       (trace (host s) ++ [EvRequestNew a; EvRequestNew (S a)] ++
                        in_isolate (Some i1)
                          [EvTaskRun task; EvTaskDelete task; EvRequestFree a] ++
                        in_isolate (Some i2)
                          [EvIdleTaskRun idle_task
                             (double_add (reading s3)
                                (double_div (double_lit 1) (double_lit 60)));
                           EvIdleTaskDelete idle_task; EvRequestFree (S a)])
                       (set_next_addr (S (S a)) (host s))))).
  { subst s4. rewrite js_thread_step_run. rewrite E3.
    destruct s as [p []]. cbn [host js_thread set_js_thread set_trace set_next_addr this
      final trace job_events GumV8TaskRequest.isolate GumV8TaskRequest.task
      GumV8TaskRequest.addr clock next_addr thread_pool sources v8_dispose_posts].
    rewrite <- !app_assoc. reflexivity. }
  clearbody s4. rewrite E4.
  split; [apply events_since_app; reflexivity|].
  repeat split; reflexivity.
Qed.

(** X7.  A delayed task whose timer is then dispatched leaves nothing
    behind: the timers are exactly those there were before the dispatch, the
    queues and the platform object are untouched, and the request that was
    allocated has been released.  Dispatching a timer never touches another
    timer; and dispatching what is not a timer, or a source that is not
    attached or has no callback, does nothing at all. *)
Theorem delayed_dispatch_leaves_no_residue
    (for_isolate : ptr Isolate) (task : Task) (delay_in_seconds : double)
    (s : State) (source other : nat) :
  disposing (this s) = false ->
  sources (host s) !! S (next_addr (host s)) = None ->
  let a := next_addr (host s) in
  let s1 := final (CallDelayedOnForegroundThread for_isolate task delay_in_seconds s) in
  let s2 := final (g_main_context_dispatch_source (S a) s1) in
  (sources (host s2) = sources (host s) /\
   thread_pool (host s2) = thread_pool (host s) /\
   js_thread (host s2) = js_thread (host s) /\
   this s2 = this s /\
   new_requests (events_since s s2) = [a] /\
   freed_requests (events_since s s2) = [a]) /\
  (other <> source ->
   sources (host (final (g_main_context_dispatch_source source s))) !! other =
   sources (host s) !! other) /\
  ((sources (host s) !! source = None \/
    exists g, sources (host s) !! source = Some g /\
              (attached_to g = None \/ callback g = None)) ->
   g_main_context_dispatch_source source s = Ok tt s).
Proof.
  intros Hd Hfresh a s1 s2. split; [|split].
  - assert (E1 : s1 = mkState (this s)
                   (set_sources
                      (<[S a := delayed_source (this s)
                                  (GumV8TaskRequest.mk a ThisPlatform for_isolate task)
                                  delay_in_seconds]> (sources (host s)))
                      (set_trace (trace (host s) ++ [EvRequestNew a])
                         (set_next_addr (S (S a)) (host s))))).
    { subst s1. rewrite CallDelayedOnForegroundThread_cases, Hd. reflexivity. }
    clearbody s1.
    set (body := match for_isolate with
                 | Some i => in_isolate (Some i)
                               [EvTaskRun task; EvTaskDelete task; EvRequestFree a]
                 | None => [EvTaskRun task; EvTaskDelete task; EvRequestFree a]
                 end).
    assert (E2 : s2 = mkState (this s)
                   (set_sources (sources (host s))
                      (set_trace (trace (host s) ++ [EvRequestNew a] ++ body)
                         (set_next_addr (S (S a)) (host s))))).
    { subst s2. rewrite g_main_context_dispatch_source_cases. rewrite E1.
      cbn [host sources set_sources]. rewrite lookup_insert_eq.
      cbn [attached_to callback delayed_source ref_count this final].
      unfold after_destroy. cbn [ref_count delayed_source].
      rewrite decide_True by lia. rewrite (delete_insert_id _ _ _ Hfresh).
      cbn [job_events GumV8TaskRequest.isolate GumV8TaskRequest.task
           GumV8TaskRequest.addr]. cbn zeta. fold body.
      destruct s as [p []].
      cbn [host trace set_trace set_sources set_next_addr this clock next_addr
           thread_pool js_thread sources v8_dispose_posts].
      rewrite <- app_assoc. reflexivity. }
    clearbody s2. rewrite E2.
    assert (Hev : events_since s
                    (mkState (this s)
                       (set_sources (sources (host s))
                          (set_trace (trace (host s) ++ [EvRequestNew a] ++ body)
                             (set_next_addr (S (S a)) (host s))))) =
                  [EvRequestNew a] ++ body)
      by (apply events_since_app; reflexivity).
    rewrite Hev. subst body. repeat split; try reflexivity.
    + destruct for_isolate; reflexivity.
    + destruct for_isolate; reflexivity.
  - intros Hne. rewrite g_main_context_dispatch_source_cases.
    destruct (sources (host s) !! source) as [g|] eqn:Hg; [|reflexivity].
    destruct (attached_to g); [|reflexivity].
    destruct (callback g) as [[request]|]; [|reflexivity].
    cbn [final host sources set_sources]. unfold after_destroy.
    destruct (decide (ref_count g <= 1)%nat).
    + apply lookup_delete_ne. congruence.
    + apply lookup_alter_ne. congruence.
  - intros [Hnone|(g & Hg & Hshape)]; rewrite g_main_context_dispatch_source_cases.
    + rewrite Hnone. reflexivity.
    + rewrite Hg. destruct Hshape as [-> | ->]; [reflexivity|].
      destruct (attached_to g); reflexivity.
Qed.

End DispatchAndExecute.

Lemma background_task_runs_without_lock_witness :
  let s := example_state 1005500 in
  let s2 :=
    final (@thread_pool_step exact_rounding 0
             (final (CallOnBackgroundThread (TaskAt 9) kShortRunningTask s))) in
  events_since s s2 =
    [EvRequestNew 6; EvTaskRun (TaskAt 9); EvTaskDelete (TaskAt 9); EvRequestFree 6] /\
  thread_pool (host s2) = [].
Proof.
  pose proof (@background_task_runs_without_lock exact_rounding (TaskAt 9)
                kShortRunningTask (example_state 1005500) eq_refl)
    as (Hev & _ & Hp & _).
  split; [exact Hev | exact Hp].
Defined.

Lemma foreground_then_idle_run_in_order_witness :
  let s := example_state 1005500 in
  let s1 := final (CallOnForegroundThread (Some (IsolateAt 2)) (TaskAt 9) s) in
  let s2 := final (CallIdleOnForegroundThread (Some (IsolateAt 2)) (IdleTaskAt 10) s1) in
  let s4 := final (@js_thread_step exact_rounding (final (@js_thread_step exact_rounding s2))) in
  js_thread (host s4) = [].
Proof.
  exact (proj1 (proj2
    (@foreground_then_idle_run_in_order exact_rounding (IsolateAt 2) (IsolateAt 2)
       (TaskAt 9) (IdleTaskAt 10) (example_state 1005500) eq_refl eq_refl))).
Defined.

Lemma delayed_dispatch_leaves_no_residue_witness :
  let s := example_state 1005500 in
  let s1 := final (@CallDelayedOnForegroundThread exact_rounding NULL (TaskAt 9) (1 # 20) s) in
  sources (host (final (g_main_context_dispatch_source 7 s1))) = sources (host s).
Proof.
  exact (proj1 (proj1
    (@delayed_dispatch_leaves_no_residue exact_rounding NULL (TaskAt 9) (1 # 20)
       (example_state 1005500) 7%nat 8%nat eq_refl eq_refl))).
Defined.

(** ** The resolution of the clock and of the timers *)








(** ** The array buffer allocator *)

Lemma heap_ok_fresh (h : GHeap) : heap_ok h -> blocks h !! brk h = None.
Proof.
  intros Hok. destruct (blocks h !! brk h) as [block|] eqn:E; [|reflexivity].
  apply Hok in E. lia.
Qed.

(** X10.  [Allocate] of no bytes returns NULL and changes nothing.
    [Allocate] of [length] bytes returns a block that was not allocated
    before, of exactly [length] bytes, all of them zero, and leaves every
    other block as it is, while [AllocateUninitialized] returns a block of
    the same size whose bytes are whatever the memory held.  [Free] does the
    same whatever length it is told, ignores NULL, and, given the block of
    an [Allocate] or [AllocateUninitialized], leaves the blocks exactly as
    they were before the allocation. *)
Theorem array_buffers_are_zeroed_and_freed (length told told' : nat) (h : GHeap) :
  heap_ok h ->
  let r := GumArrayBufferAllocator.Allocate length h in
  let u := GumArrayBufferAllocator.AllocateUninitialized length h in
  (length = 0%nat -> r = (NULL, h) /\ u = (NULL, h)) /\
  (length <> 0%nat ->
   r.1 = Some (brk h) /\ u.1 = Some (brk h) /\
   blocks h !! brk h = None /\
   blocks r.2 !! brk h = Some (replicate length Byte.x00) /\
   (exists block, blocks u.2 !! brk h = Some block /\ List.length block = length /\
      forall i, (i < length)%nat -> block !! i = Some (stale h (brk h + i)%nat)) /\
   (forall a, a <> brk h -> blocks r.2 !! a = blocks h !! a) /\
   heap_ok r.2 /\ heap_ok u.2) /\
  blocks (GumArrayBufferAllocator.Free r.1 told r.2) = blocks h /\
  blocks (GumArrayBufferAllocator.Free u.1 told u.2) = blocks h /\
  (forall data h',
     GumArrayBufferAllocator.Free data told h' =
     GumArrayBufferAllocator.Free data told' h') /\
  GumArrayBufferAllocator.Free NULL told h = h.
Proof.
  intros Hok r u. pose proof (heap_ok_fresh h Hok) as Hfresh.
  subst r u. unfold GumArrayBufferAllocator.Allocate,
    GumArrayBufferAllocator.AllocateUninitialized, GumArrayBufferAllocator.Free.
  destruct length as [|n].
  - cbn [g_malloc g_malloc0 g_free fst snd blocks brk].
    split; [intros _; split; reflexivity|].
    split; [intros Hne; exfalso; apply Hne; reflexivity|].
    repeat split; reflexivity.
  - cbn [g_malloc g_malloc0 g_free fst snd blocks brk].
    split; [discriminate|]. split; [intros _|].
    + split; [reflexivity|]. split; [reflexivity|]. split; [exact Hfresh|].
      split; [apply lookup_insert_eq|]. split; [|split; [|split]].
      * eexists. split; [apply lookup_insert_eq|].
        split; [rewrite length_fmap, length_seq; reflexivity|].
        intros i Hi. rewrite list_lookup_fmap, lookup_seq_lt by exact Hi. reflexivity.
      * intros a Ha. apply lookup_insert_ne. congruence.
      * intros a block Hb. cbn in *.
        apply lookup_insert_Some in Hb as [[<- _]|[_ Hb]]; [lia|].
        apply Hok in Hb. lia.
      * intros a block Hb. cbn in *.
        apply lookup_insert_Some in Hb as [[<- _]|[_ Hb]]; [lia|].
        apply Hok in Hb. lia.
    + rewrite !(delete_insert_id _ _ _ Hfresh). repeat split; reflexivity.
Qed.

Lemma array_buffers_are_zeroed_and_freed_witness :
  let h := mkHeap {[ 0%nat := [Byte.x41; Byte.x42] ]} 2 (fun _ => Byte.xff) in
  blocks (GumArrayBufferAllocator.Free (GumArrayBufferAllocator.Allocate 3 h).1 7
            (GumArrayBufferAllocator.Allocate 3 h).2) = blocks h.
Proof.
  refine (proj1 (proj2 (proj2
    (array_buffers_are_zeroed_and_freed 3 7 0
       (mkHeap {[ 0%nat := [Byte.x41; Byte.x42] ]} 2 (fun _ => Byte.xff)) _)))).
  intros a block Hb. cbn [blocks brk] in *.
  apply lookup_singleton_Some in Hb as [<- _]. lia.
Defined.

Example allocate_three_bytes :
  let h := mkHeap {[ 0%nat := [Byte.x41; Byte.x42] ]} 2 (fun _ => Byte.xff) in
  blocks (GumArrayBufferAllocator.Allocate 3 h).2 !! 2%nat =
    Some [Byte.x00; Byte.x00; Byte.x00] /\
  blocks (GumArrayBufferAllocator.AllocateUninitialized 3 h).2 !! 2%nat =
    Some [Byte.xff; Byte.xff; Byte.xff].
Proof. split; vm_compute; reflexivity. Qed.
